(** * TIFA: the type inferencer and flow analyzer of pedal, embedded in Rocq

    A shallow embedding of [tifa/tifa.py]: the type lattice, the operator
    tables, the builtin and module registries, the scope/path state store
    and the AST visitor.  Python exceptions are explicit results; the
    analyzer object is an explicit state that survives a raised exception,
    as the attributes of [self] do. *)

From Stdlib Require Import ZArith String Ascii List Bool Lia DecimalString.
Import ListNotations.
Open Scope string_scope.
Open Scope Z_scope.
Set Warnings "-register-all".

(* ===================================================================== *)
(** * Python preliminaries *)
(* ===================================================================== *)

(** Exceptions the analyzer can raise.  All of them are subclasses of
    Python's [Exception]. *)
Inductive exn : Type :=
| NameError | AttributeError | IndexError | KeyError | TypeError
| ValueError | SyntaxError.

Inductive result (A : Type) : Type :=
| Ok (a : A)
| Err (e : exn).
Arguments Ok {A} a.
Arguments Err {A} e.

Definition rbind {A B} (r : result A) (f : A -> result B) : result B :=
  match r with
  | Ok a => f a
  | Err e => Err e
  end.

Declare Scope res_scope.
Delimit Scope res_scope with res.
Notation "x <- r ;; k" := (rbind r (fun x => k))
  (at level 61, r at next level, right associativity) : res_scope.

(** ** Strings *)

Definition slash : ascii := "/"%char.
Definition dot : ascii := "."%char.
Definition newline : ascii := "010"%char.

(** [s.split(sep)] for a one-character separator. *)
Fixpoint split (sep : ascii) (s : string) : list string :=
  match s with
  | EmptyString => [EmptyString]
  | String c rest =>
      if Ascii.eqb c sep then EmptyString :: split sep rest
      else match split sep rest with
           | [] => [String c EmptyString]
           | w :: ws => String c w :: ws
           end
  end.

(** [sep.join(l)]. *)
Definition join (sep : string) (l : list string) : string :=
  String.concat sep l.

(** [str(n)] for an int. *)
Definition str (n : Z) : string := NilZero.string_of_int (Z.to_int n).

(** [s.rsplit(sep, maxsplit=1)[-1]]: what follows the last separator. *)
Definition rsplit_last (sep : ascii) (s : string) : string :=
  last (split sep s) EmptyString.

(** [l[:-1]]. *)
Definition drop_last {A} (l : list A) : list A := removelast l.

(** In Python a [str] never compares equal to an [int]. *)
Definition py_eq_str_int (s : string) (n : Z) : bool := false.

(** [==] between a list of [str] and a list of [int]: same length and
    equal element by element. *)
Fixpoint py_list_eq_str_int (l : list string) (m : list Z) : bool :=
  match l, m with
  | [], [] => true
  | x :: l', y :: m' => py_eq_str_int x y && py_list_eq_str_int l' m'
  | _, _ => false
  end.

(** [l[i]] with Python's negative indices. *)
Definition py_nth {A} (l : list A) (i : Z) : result A :=
  let n := Z.of_nat (length l) in
  let j := if i <? 0 then i + n else i in
  if (j <? 0) || (n <=? j) then Err IndexError
  else match nth_error l (Z.to_nat j) with
       | Some a => Ok a
       | None => Err IndexError
       end.

(** [l[-1]]. *)
Definition py_last {A} (l : list A) : result A :=
  match l with
  | [] => Err IndexError
  | x :: l' => Ok (last l' x)
  end.

(** ** Dictionaries

    A [dict] keeps its keys in insertion order; assigning to a key that is
    present keeps the key's place. *)
Section Dict.
Context {K V : Type} (eqb : K -> K -> bool).

Fixpoint dict_get (k : K) (d : list (K * V)) : option V :=
  match d with
  | [] => None
  | (k', v) :: d' => if eqb k k' then Some v else dict_get k d'
  end.

Definition dict_mem (k : K) (d : list (K * V)) : bool :=
  match dict_get k d with Some _ => true | None => false end.

Fixpoint dict_set (k : K) (v : V) (d : list (K * V)) : list (K * V) :=
  match d with
  | [] => [(k, v)]
  | (k', v') :: d' =>
      if eqb k k' then (k', v) :: d' else (k', v') :: dict_set k v d'
  end.

(** A dict display [{k1: v1, k2: v2, ...}]: later duplicates win. *)
Definition dict_of (l : list (K * V)) : list (K * V) :=
  fold_left (fun d kv => dict_set (fst kv) (snd kv) d) l [].

(** [d[k]]. *)
Definition dict_item (k : K) (d : list (K * V)) : result V :=
  match dict_get k d with
  | Some v => Ok v
  | None => Err KeyError
  end.
End Dict.

Definition sdict (V : Type) : Type := list (string * V).

(** [_dict_extends(d1, d2)]. *)
Definition _dict_extends {V} (d1 d2 : sdict V) : sdict V :=
  let d3 := fold_left (fun d kv => dict_set String.eqb (fst kv) (snd kv) d) d1 [] in
  fold_left (fun d kv => dict_set String.eqb (fst kv) (snd kv) d) d2 d3.

(* ===================================================================== *)
(** * The type lattice *)
(* ===================================================================== *)

(** The operator node classes of Python's [ast] module. *)
Inductive operator : Type :=
| Add | Sub | Mult | MatMult | Div | Mod | Pow | LShift | RShift
| BitOr | BitXor | BitAnd | FloorDiv.

Inductive unaryop : Type := Invert | Not | UAdd | USub.

(** Class objects.  The first group are the classes of [tifa.py]; the
    second are the Python classes the analyzer meets through [type(...)]. *)
Inductive pyclass : Type :=
| cUnknownType | cRecursedType | cFunctionType | cNumType | cNoneType
| cBoolType | cTupleType | cListType | cStrType | cFileType | cDictType
| cModuleType | cSetType | cGeneratorType | cTimeType | cDayType
| c_type                      (* [type(C)] for a class object [C] *)
| c_list                      (* a plain Python list *)
| c_None                      (* [type(None)] *)
| cLiteralNum
| c_operator (o : operator)   (* [ast.Add], ... *)
| c_unaryop (u : unaryop).    (* [ast.UAdd], ... *)

Definition operator_eq_dec (a b : operator) : {a = b} + {a <> b}.
Proof. decide equality. Defined.

Definition unaryop_eq_dec (a b : unaryop) : {a = b} + {a <> b}.
Proof. decide equality. Defined.

Definition pyclass_eq_dec (a b : pyclass) : {a = b} + {a <> b}.
Proof.
  decide equality; [apply operator_eq_dec | apply unaryop_eq_dec].
Defined.

Definition operator_eqb (a b : operator) : bool :=
  if operator_eq_dec a b then true else false.

Definition pyclass_eqb (a b : pyclass) : bool :=
  if pyclass_eq_dec a b then true else false.

(** [LiteralValue] and its only subclass [LiteralNum]. *)
Inductive LiteralValue : Type :=
| LiteralNum (value : Z).

(** What [FunctionType.definition] holds.  Nothing in this version of the
    analyzer calls a definition, so a closure is represented by the name of
    the [def] it was made from. *)
Inductive FunDef : Type :=
| def_None                            (* [definition=None] was kept *)
| def_identity                        (* [returns == 'identity'] *)
| def_element                         (* [returns == 'element'] *)
| def_void                            (* [returns == 'void'] *)
| def_returnType                      (* the final [else]: [return returnType.clone()] *)
| def_str (s : string)                (* a string passed as [definition] *)
| def_sequence_call (constructor : pyclass)
| def_append | def_items | def_keys.  (* closures made by [load_attr] *)

(** A field that holds nothing, one value or a list of values. *)
Inductive OneOrMany (A : Type) : Type :=
| NoValue
| One (a : A)
| Many (l : list A).
Arguments NoValue {A}.
Arguments One {A} a.
Arguments Many {A} l.

(** Instances of [Type] and its subclasses.  [DictType.values] is a list of
    types next to [literals] and a single type next to [keys]. *)
Inductive Ty : Type :=
| UnknownType
| RecursedType
| FunctionType (definition : FunDef) (name : string)
| NumType
| NoneType
| BoolType
| TupleType (subtypes : list Ty)
| ListType (subtype : Ty) (empty : bool)
| StrType
| FileType
| DictType (empty : bool) (literals : option (list LiteralValue))
           (keys : option Ty) (values : OneOrMany Ty)
| ModuleType (name : string) (submodules : list (string * Ty))
             (fields : list (string * Ty))
| SetType (subtype : Ty) (empty : bool)
| GeneratorType (subtype : Ty) (empty : bool)
| TimeType
| DayType.

(** Any Python value that can stand where the analyzer expects a type. *)
Inductive pyval : Type :=
| VNone
| VType (t : Ty)              (* an instance of a [Type] class *)
| VClass (c : pyclass)        (* a class object itself *)
| VList (l : list Ty)         (* a plain list of types *)
| VLit (l : LiteralValue).

Definition class_of (t : Ty) : pyclass :=
  match t with
  | UnknownType => cUnknownType
  | RecursedType => cRecursedType
  | FunctionType _ _ => cFunctionType
  | NumType => cNumType
  | NoneType => cNoneType
  | BoolType => cBoolType
  | TupleType _ => cTupleType
  | ListType _ _ => cListType
  | StrType => cStrType
  | FileType => cFileType
  | DictType _ _ _ _ => cDictType
  | ModuleType _ _ _ => cModuleType
  | SetType _ _ => cSetType
  | GeneratorType _ _ => cGeneratorType
  | TimeType => cTimeType
  | DayType => cDayType
  end.

(** [type(v)]. *)
Definition type_of (v : pyval) : pyclass :=
  match v with
  | VNone => c_None
  | VType t => class_of t
  | VClass _ => c_type
  | VList _ => c_list
  | VLit (LiteralNum _) => cLiteralNum
  end.

(** [issubclass(c, d)] among the classes above: [SetType] and
    [GeneratorType] derive from [ListType]. *)
Definition issubclass (c d : pyclass) : bool :=
  pyclass_eqb c d ||
  match c, d with
  | cSetType, cListType | cGeneratorType, cListType => true
  | _, _ => false
  end.

Definition isinstance (v : pyval) (c : pyclass) : bool :=
  issubclass (type_of v) c.

Definition is_None (v : pyval) : bool :=
  match v with VNone => true | _ => false end.

(** Attribute reads [v.empty], [v.subtype], [v.subtypes]. *)
Definition py_empty (v : pyval) : result bool :=
  match v with
  | VType (ListType _ e) | VType (SetType _ e) | VType (GeneratorType _ e)
  | VType (DictType e _ _ _) => Ok e
  | _ => Err AttributeError
  end.

Definition py_subtype (v : pyval) : result Ty :=
  match v with
  | VType (ListType s _) | VType (SetType s _) | VType (GeneratorType s _) => Ok s
  | _ => Err AttributeError
  end.

Definition py_subtypes (v : pyval) : result (list Ty) :=
  match v with
  | VType (TupleType l) => Ok l
  | _ => Err AttributeError
  end.

Definition opt_val (o : option Ty) : pyval :=
  match o with Some t => VType t | None => VNone end.

Definition oom_val (o : OneOrMany Ty) : pyval :=
  match o with NoValue => VNone | One t => VType t | Many l => VList l end.

(** ** [clone]

    [Type.clone] is [self.__class__()]: the constructor's defaults.
    [TupleType] and [ListType] override it; [SetType] and [GeneratorType]
    inherit [ListType.clone], which builds a [ListType]. *)
Fixpoint clone (t : Ty) : Ty :=
  match t with
  | TupleType subtypes => TupleType (map clone subtypes)
  | ListType subtype empty
  | SetType subtype empty
  | GeneratorType subtype empty => ListType (clone subtype) empty
  | FunctionType _ _ => FunctionType def_None "*Anonymous"
  | DictType _ _ _ _ => DictType false None None NoValue
  | ModuleType _ _ _ => ModuleType "*UnknownModule" [] []
  | UnknownType => UnknownType
  | RecursedType => RecursedType
  | NumType => NumType
  | NoneType => NoneType
  | BoolType => BoolType
  | StrType => StrType
  | FileType => FileType
  | TimeType => TimeType
  | DayType => DayType
  end.

(** ** [merge_types] *)
Definition merge_types (left right : pyval) : result pyval :=
  if isinstance left cListType || isinstance left cSetType
     || isinstance left cGeneratorType then
    (e <- py_empty left ;;
     if e then (s <- py_subtype right ;; Ok (VType s))
     else (s <- py_subtype left ;; Ok (VType (clone s))))%res
  else if isinstance left cTupleType then
    (l <- py_subtypes left ;;
     r <- py_subtypes right ;;
     Ok (VList (l ++ r)))%res
  else Ok VNone.

(** ** The operator tables *)

(** [NumType_any = lambda *x: NumType] and its two siblings return the
    class object they name. *)
Definition NumType_any (x : list pyval) : pyval := VClass cNumType.
Definition StrType_any (x : list pyval) : pyval := VClass cStrType.
Definition BoolType_any (x : list pyval) : pyval := VClass cBoolType.

(** The callables stored in [VALID_BINOP_TYPES]. *)
Inductive binop_rule : Type :=
| rule_NumType_any
| rule_StrType_any
| rule_BoolType_any
| rule_merge_types
| rule_left          (* [lambda l,r: l] *)
| rule_right.        (* [lambda l,r: r] *)

Definition call_rule (f : binop_rule) (left right : pyval) : result pyval :=
  match f with
  | rule_NumType_any => Ok (NumType_any [left; right])
  | rule_StrType_any => Ok (StrType_any [left; right])
  | rule_BoolType_any => Ok (BoolType_any [left; right])
  | rule_merge_types => merge_types left right
  | rule_left => Ok left
  | rule_right => Ok right
  end.

Definition cdict (V : Type) : Type := list (pyclass * V).

Definition VALID_BINOP_TYPES : list (operator * cdict (cdict binop_rule)) :=
  let num_num := (cNumType, dict_of pyclass_eqb [(cNumType, rule_NumType_any)]) in
  let bits :=
    dict_of pyclass_eqb
      [ num_num;
        (cBoolType, dict_of pyclass_eqb [(cNumType, rule_NumType_any);
                                         (cBoolType, rule_BoolType_any)]);
        (cSetType, dict_of pyclass_eqb [(cSetType, rule_merge_types)]) ] in
  dict_of operator_eqb
    [ (Add, dict_of pyclass_eqb
              [ num_num;
                (cStrType, dict_of pyclass_eqb [(cStrType, rule_StrType_any)]);
                (cListType, dict_of pyclass_eqb [(cListType, rule_merge_types)]);
                (cTupleType, dict_of pyclass_eqb [(cTupleType, rule_merge_types)]) ]);
      (Sub, dict_of pyclass_eqb
              [ num_num;
                (cSetType, dict_of pyclass_eqb [(cSetType, rule_merge_types)]) ]);
      (Div, dict_of pyclass_eqb [num_num]);
      (FloorDiv, dict_of pyclass_eqb [num_num]);
      (Mult, dict_of pyclass_eqb
               [ (cNumType, dict_of pyclass_eqb
                              [ (cNumType, rule_NumType_any);
                                (cStrType, rule_StrType_any);
                                (cListType, rule_right);
                                (cTupleType, rule_right) ]);
                 (cStrType, dict_of pyclass_eqb [(cNumType, rule_StrType_any)]);
                 (cListType, dict_of pyclass_eqb [(cNumType, rule_left)]);
                 (cTupleType, dict_of pyclass_eqb [(cNumType, rule_left)]) ]);
      (Pow, dict_of pyclass_eqb [num_num]);
      (Mod, dict_of pyclass_eqb [num_num]);
      (LShift, dict_of pyclass_eqb [num_num]);
      (RShift, dict_of pyclass_eqb [num_num]);
      (BitOr, bits);
      (BitXor, bits);
      (BitAnd, bits) ].

(** [VALID_UNARYOP_TYPES] maps an operator class and an operand class to
    the class [NumType]. *)
Definition VALID_UNARYOP_TYPES : list (pyclass * cdict pyclass) :=
  dict_of pyclass_eqb
    [ (c_unaryop UAdd, dict_of pyclass_eqb [(cNumType, cNumType)]);
      (c_unaryop USub, dict_of pyclass_eqb [(cNumType, cNumType)]);
      (c_unaryop Invert, dict_of pyclass_eqb [(cNumType, cNumType)]) ].

(** The table walk shared by [visit_BinOp] and [visit_AugAssign]: the rule
    stored for [op], [type(left)] and [type(right)], when every level has
    its key. *)
Definition binop_lookup (op : operator) (left right : pyval) : option binop_rule :=
  match dict_get operator_eqb op VALID_BINOP_TYPES with
  | Some op_lookup =>
      match dict_get pyclass_eqb (type_of left) op_lookup with
      | Some op_lookup' => dict_get pyclass_eqb (type_of right) op_lookup'
      | None => None
      end
  | None => None
  end.

(** ** [are_types_equal] *)

(** The function for a [left] that is not an instance of a [Type] class:
    such a value passes none of the container tests. *)
Definition are_types_equal_other (left right : pyval) : bool :=
  if is_None left || is_None right then false
  else if isinstance left cUnknownType || isinstance right cUnknownType then false
  else if negb (pyclass_eqb (type_of left) (type_of right)) then false
  else true.

(** The function for a [left] that is an instance; the recursion follows
    [left]. *)
Fixpoint are_types_equal_inst (left : Ty) (right : pyval) {struct left}
  : result bool :=
  if is_None right then Ok false
  else if isinstance (VType left) cUnknownType || isinstance right cUnknownType
  then Ok false
  else if negb (pyclass_eqb (class_of left) (type_of right)) then Ok false
  else
    match left with
    | ListType sl el | SetType sl el | GeneratorType sl el =>
        if el then Ok true
        else
          (er <- py_empty right ;;
           if (er : bool) then Ok true
           else (sr <- py_subtype right ;;
                 are_types_equal_inst sl (VType sr)))%res
    | TupleType _ =>
        (* [left.empty]: a TupleType has no such attribute *)
        Err AttributeError
    | DictType el ll kl vl =>
        match right with
        | VType (DictType er lr kr vr) =>
            if el || er then Ok true
            else
              match ll, lr with
              | Some ll', Some lr' =>
                  if negb (Nat.eqb (length ll') (length lr')) then Ok false
                  else if negb (forallb (fun p => are_types_equal_other
                                                    (VLit (fst p)) (VLit (snd p)))
                                        (combine ll' lr'))
                  then Ok false
                  else
                    match vl, vr with
                    | Many vl', Many vr' =>
                        (fix loop (ls rs : list Ty) {struct ls} : result bool :=
                           match ls, rs with
                           | l :: ls', r :: rs' =>
                               (b <- are_types_equal_inst l (VType r) ;;
                                if (b : bool) then loop ls' rs' else Ok false)%res
                           | _, _ => Ok true
                           end) vl' vr'
                    | _, _ => Err TypeError   (* [zip] of a non-iterable *)
                    end
              | Some _, None | None, Some _ => Ok false
              | None, None =>
                  (keys_equal <-
                     match kl with
                     | Some k => are_types_equal_inst k (opt_val kr)
                     | None => Ok false
                     end ;;
                   values_equal <-
                     match vl with
                     | One v => are_types_equal_inst v (oom_val vr)
                     | NoValue => Ok false
                     | Many l => Ok (are_types_equal_other (VList l) (oom_val vr))
                     end ;;
                   Ok (keys_equal && values_equal))%res
              end
        | _ => Ok true
        end
    | _ => Ok true
    end.

Definition are_types_equal (left right : pyval) : result bool :=
  match left with
  | VType l => are_types_equal_inst l right
  | _ => Ok (are_types_equal_other left right)
  end.

(* ===================================================================== *)
(** * The registries *)
(* ===================================================================== *)

(** What a caller passes as [returns=] to [FunctionType]. *)
Inductive returns_arg : Type :=
| ret_str (s : string)          (* a string such as ['identity'] *)
| ret_type (t : Ty)             (* an instance such as [NumType()] *)
| ret_function (f : string).    (* a function object *)

(** [FunctionType.__init__(definition, name, returns)]. *)
Definition FunctionType_init (definition : option FunDef) (name : string)
           (returns : option returns_arg) : Ty :=
  let definition' :=
    match returns, definition with
    | Some r, None =>
        match r with
        | ret_str s =>
            if String.eqb s "identity" then def_identity
            else if String.eqb s "element" then def_element
            else if String.eqb s "void" then def_void
            else def_returnType
        | _ => def_returnType
        end
    | _, Some d => d
    | None, None => def_None
    end in
  FunctionType definition' name.

(** [FunctionType(name=n, returns=t)] and [FunctionType(s, returns=t)]. *)
Definition fn_named (n : string) (returns : returns_arg) : Ty :=
  FunctionType_init None n (Some returns).
Definition fn_positional (s : string) (returns : returns_arg) : Ty :=
  FunctionType_init (Some (def_str s)) "*Anonymous" (Some returns).

(** [ListType(subtype=None, empty=True)]. *)
Definition ListType_init (subtype : option Ty) (empty : bool) : Ty :=
  ListType (match subtype with Some t => t | None => UnknownType end) empty.

(** [ModuleType()]. *)
Definition ModuleType_default : Ty := ModuleType "*UnknownModule" [] [].

(** [DictType()]. *)
Definition DictType_default : Ty := DictType false None None NoValue.

(** [Type.fields]. *)
Definition Type_fields : sdict Ty := [].

Definition StrType_fields : sdict Ty :=
  let returns_str n := (n, fn_positional n (ret_type StrType)) in
  let returns_num n := (n, fn_positional n (ret_type NumType)) in
  let returns_bool n := (n, fn_positional n (ret_type BoolType)) in
  let returns_strs n :=
    (n, fn_positional n (ret_type (ListType_init (Some StrType) true))) in
  fold_left (fun d kv => dict_set String.eqb (fst kv) (snd kv) d)
    (map returns_str
       ["capitalize"; "center"; "expandtabs"; "join"; "ljust"; "lower";
        "lstrip"; "replace"; "rjust"; "rstrip"; "strip"; "swapcase";
        "title"; "translate"; "upper"; "zfill"]
     ++ map returns_num ["count"; "find"; "rfind"; "index"; "rindex"]
     ++ map returns_bool
       ["startswith"; "endswith"; "isalnum"; "isalpha"; "isdigit";
        "islower"; "isspace"; "istitle"; "isupper"]
     ++ map returns_strs ["rsplit"; "split"; "splitlines"])
    (_dict_extends Type_fields []).

Definition FileType_fields : sdict Ty :=
  _dict_extends Type_fields
    (dict_of String.eqb
       [ ("close", fn_positional "close" (ret_str "void"));
         ("read", fn_positional "read" (ret_type StrType));
         ("readlines",
          fn_positional "readlines"
            (ret_type (ListType_init (Some StrType) false))) ]).

Definition MODULES : sdict Ty :=
  let none n := (n, fn_named n (ret_type NoneType)) in
  let num n := (n, fn_named n (ret_type NumType)) in
  let bool n := (n, fn_named n (ret_type BoolType)) in
  dict_of String.eqb
    [ ("matplotlib",
       ModuleType "matplotlib"
         (dict_of String.eqb
            [ ("pyplot",
               ModuleType "pyplot" []
                 (dict_of String.eqb
                    (map none ["plot"; "hist"; "scatter"; "show"; "xlabel";
                               "ylabel"; "title"]))) ])
         []);
      ("pprint", ModuleType "pprint" [] (dict_of String.eqb [none "pprint"]));
      ("random", ModuleType "random" [] (dict_of String.eqb [num "randint"]));
      ("turtle",
       ModuleType "turtle" []
         (dict_of String.eqb
            (map none ["forward"; "backward"; "color"; "right"; "left"])));
      ("parking",
       ModuleType "parking" []
         (dict_of String.eqb
            [ ("Time", fn_named "Time" (ret_type TimeType));
              ("now", fn_named "now" (ret_type TimeType));
              ("Day", fn_named "Day" (ret_type DayType));
              ("today", fn_named "today" (ret_type DayType)) ]));
      ("math",
       ModuleType "math" []
         (dict_of String.eqb
            (map num ["ceil"; "copysign"; "fabs"; "factorial"; "floor";
                      "fmod"; "frexp"; "fsum"; "gcd"]
             ++ map bool ["isclose"; "isfinite"; "isinf"; "isnan"]
             ++ map num ["ldexp"; "modf"; "trunc"; "log"; "log1p"; "log2";
                         "log10"; "pow"; "sqrt"; "acos"; "sin"; "cos"; "tan";
                         "asin"; "acos"; "atan"; "atan2"; "hypot"; "degrees";
                         "radians"; "sinh"; "cosh"; "tanh"; "asinh"; "acosh";
                         "atanh"; "erf"; "erfc"; "gamma"; "lgamma"]
             ++ [ ("pi", NumType); ("e", NumType); ("tau", NumType);
                  ("inf", NumType); ("nan", NumType) ]))) ].

Definition BUILTINS : sdict Ty :=
  let returns t n := (n, fn_named n (ret_type t)) in
  let identity n := (n, fn_named n (ret_str "identity")) in
  dict_of String.eqb
    ([ returns NoneType "print" ]
     ++ map (returns NumType)
          ["int"; "abs"; "float"; "len"; "ord"; "pow"; "round"; "sum"]
     ++ map (returns BoolType) ["bool"; "all"; "any"; "isinstance"]
     ++ map (returns StrType) ["input"; "str"; "chr"; "repr"]
     ++ [ returns FileType "open";
          returns (ListType_init None true) "map";
          ("list", FunctionType_init (Some (def_sequence_call cListType))
                     "list" None);
          ("list", FunctionType_init (Some (def_sequence_call cSetType))
                     "list" None);
          returns DictType_default "dict" ]
     ++ map identity ["sorted"; "reversed"; "filter"]
     ++ [ returns (ListType_init (Some NumType) true) "range";
          returns (ListType_init (Some StrType) true) "dir";
          ("max", fn_named "max" (ret_str "element"));
          ("min", fn_named "min" (ret_str "element"));
          ("zip", fn_named "zip" (ret_function "_builtin_zip")) ]).

(** ** [index] and [load_attr] *)

(** [self.fields] as seen from an instance. *)
Definition fields_of (self : Ty) : sdict Ty :=
  match self with
  | StrType => StrType_fields
  | FileType => FileType_fields
  | ModuleType _ _ fields => fields
  | _ => Type_fields
  end.

(** [Type.load_attr].  The report of 'Append to non-list' asks for
    [tifa.identifyCaller], which [Tifa] does not define. *)
Definition Type_load_attr (self : Ty) (attr : string) : result Ty :=
  match dict_get String.eqb attr (fields_of self) with
  | Some t => Ok t
  | None =>
      if String.eqb attr "append" then Err AttributeError
      else Ok UnknownType
  end.

(** [load_attr] with the overrides of [ListType] and [DictType]; in
    [DictType.load_attr] the branch for ['values'] names [_values], which
    is not defined. *)
Definition load_attr (self : Ty) (attr : string) : result Ty :=
  match self with
  | ListType _ _ | SetType _ _ | GeneratorType _ _ =>
      if String.eqb attr "append" then Ok (FunctionType def_append "append")
      else Type_load_attr self attr
  | DictType _ _ _ _ =>
      if String.eqb attr "items" then Ok (FunctionType def_items "items")
      else if String.eqb attr "keys" then Ok (FunctionType def_keys "keys")
      else if String.eqb attr "values" then Err NameError
      else Type_load_attr self attr
  | _ => Type_load_attr self attr
  end.

(** [t.index(LiteralNum(i))] on whatever value [t] is. *)
Definition index (self : pyval) (i : LiteralValue) : result pyval :=
  match self with
  | VType t =>
      match t with
      | TupleType subtypes =>
          match i with
          | LiteralNum value =>
              (s <- py_nth subtypes value ;; Ok (VType (clone s)))%res
          end
      | ListType subtype _ | SetType subtype _ | GeneratorType subtype _ =>
          Ok (VType (clone subtype))
      | StrType | FileType => Ok (VType StrType)
      | DictType _ literals keys values =>
          match literals with
          | Some ls =>
              match values with
              | Many vs =>
                  match combine ls vs with
                  | [] => Ok (VType UnknownType)
                  | _ :: _ =>
                      (* [Tifa.are_literals_equal] is not defined *)
                      Err AttributeError
                  end
              | _ => Err TypeError
              end
          | None =>
              match keys with
              | Some k => Ok (VType (clone k))
              | None => Err AttributeError
              end
          end
      | _ => Ok (VType (clone t))
      end
  | VClass _ => Err TypeError       (* the plain function, one argument short *)
  | VList _ => Err ValueError       (* [list.index]: the literal is not in the list *)
  | VNone | VLit _ => Err AttributeError
  end.

(* ===================================================================== *)
(** * States, identifiers and the report *)
(* ===================================================================== *)

Record Position : Type := mkPosition { column : Z; line : Z }.

(** The values ['yes'], ['no'] and ['maybe'] of a State's flags. *)
Inductive tri : Type := yes | no | maybe.

Definition tri_eqb (a b : tri) : bool :=
  match a, b with
  | yes, yes | no, no | maybe, maybe => true
  | _, _ => false
  end.

Inductive State : Type := mkState {
  st_name : option string;
  st_trace : list State;
  st_type : pyval;
  st_method : string;
  st_position : Position;
  st_over_position : option Position;
  st_read : tri;
  st_set : tri;
  st_over : tri
}.

(** [State.copy] reads [state.read], and no [state] is bound in its body or
    in the module: the call raises before a State is built. *)
Definition State_copy (self : State) (method : string) (position : Position)
  : result State :=
  Err NameError.

Record Identifier : Type := mkIdentifier {
  id_exists : bool;
  id_in_scope : bool;
  id_scoped_name : string;
  id_state : option State          (* [None] stands for the default [""] *)
}.

(** [Identifier(False)]. *)
Definition Identifier_False : Identifier :=
  mkIdentifier false false "UNKNOWN" None.

(** The values in the payload of an issue. *)
Inductive data_value : Type :=
| d_name (n : option string)
| d_position (p : option Position)
| d_type (v : pyval).

Definition issue_data : Type := sdict data_value.

Definition name_map_t : Type := list (Z * sdict State).

(** What [report['variables']] is: a dict of the report's own, or the
    analyzer's [name_map] object itself, which [process_ast] stores there,
    so that a later write to the name map shows in the report. *)
Inductive variables_t : Type :=
| OwnVariables (d : name_map_t)
| TheNameMap.

Record Report : Type := mkReport {
  success : bool;
  error : option exn;                           (* key absent: [None] *)
  issues : sdict (list issue_data);
  variables : variables_t;
  top_level_variables : option (sdict State)    (* key absent: [None] *)
}.

Definition _error_report (e : exn) : Report :=
  mkReport false (Some e) [] (OwnVariables []) None.

Definition issue_kinds : list string :=
  [ "Parser Failure"; "Unconnected blocks"; "Empty Body";
    "Malformed Conditional"; "Unnecessary Pass"; "Unread variables";
    "Undefined variables"; "Possibly undefined variables";
    "Overwritten variables"; "Append to non-list"; "Used iteration list";
    "Unused iteration variable"; "Non-list iterations"; "Empty iterations";
    "Type changes"; "Iteration variable is iteration list";
    "Unknown functions"; "Not a function"; "Recursive Call";
    "Incorrect Arity"; "Action after return"; "Incompatible types";
    "Return outside function"; "Read out of scope"; "Write out of scope";
    "Aliased built-in"; "Method not in Type"; "Submodule not found";
    "Module not found" ].

Definition _initialize_report : Report :=
  mkReport true None
           (dict_of String.eqb (map (fun k => (k, [])) issue_kinds))
           (OwnVariables []) None.

(* ===================================================================== *)
(** * The syntax tree *)
(* ===================================================================== *)

Record alias : Type := mkAlias {
  alias_name : string;
  alias_asname : option string
}.

(** Nodes of Python's [ast].  The node kinds [tifa.py] names get a
    constructor; every other kind is an [ast_Other] with its child nodes in
    field order, and a position when the kind carries one.  An expression
    context is a child node like any other. *)
Inductive node : Type :=
| ast_Load
| ast_Store
| ast_Name (id : string) (ctx : node) (pos : Position)
| ast_Assign (targets : list node) (value : node) (pos : Position)
| ast_AugAssign (target : node) (op : operator) (value : node) (pos : Position)
| ast_BinOp (left : node) (op : operator) (right : node) (pos : Position)
| ast_UnaryOp (op : unaryop) (operand : node) (pos : Position)
| ast_Import (names : list alias) (pos : Position)
| ast_ImportFrom (module : option string) (names : list alias) (pos : Position)
| ast_Tuple (elts : list node) (ctx : node) (pos : Position)
| ast_List (elts : list node) (ctx : node) (pos : Position)
| ast_Subscript (value : node) (slice : node) (ctx : node) (pos : Position)
| ast_Attribute (value : node) (attr : string) (ctx : node) (pos : Position)
| ast_Call (func : node) (args : list node) (keywords : list node) (pos : Position)
| ast_Other (children : list node) (pos : option Position).

(** [node.col_offset] and [node.lineno] together, as [locate] reads them. *)
Definition node_position (n : node) : result Position :=
  match n with
  | ast_Load | ast_Store => Err AttributeError
  | ast_Name _ _ pos | ast_Assign _ _ pos | ast_AugAssign _ _ _ pos
  | ast_BinOp _ _ _ pos | ast_UnaryOp _ _ pos | ast_Import _ pos
  | ast_ImportFrom _ _ pos | ast_Tuple _ _ pos | ast_List _ _ pos
  | ast_Subscript _ _ _ pos | ast_Attribute _ _ _ pos | ast_Call _ _ _ pos =>
      Ok pos
  | ast_Other _ (Some pos) => Ok pos
  | ast_Other _ None => Err AttributeError
  end.

(** [isinstance(n, ast.Load)]. *)
Definition is_Load (n : node) : bool :=
  match n with ast_Load => true | _ => false end.

(* ===================================================================== *)
(** * The analyzer object *)
(* ===================================================================== *)

(** The attributes of a [Tifa] object, once [_reset] and [process_ast]
    have created them. *)
Record Tifa : Type := mkTifa {
  source : list string;
  report : Report;
  path_id : Z;
  scope_id : Z;
  ast_id : Z;
  path_names : list string;
  scope_names : list string;
  node_chain : list node;
  scope_chain : list Z;
  path_chain : list Z;
  name_map : name_map_t;
  definition_chain : list string;
  path_parents : list (Z * Z)
}.

Definition set_source (v : list string) (s : Tifa) : Tifa :=
  mkTifa v (report s) (path_id s) (scope_id s) (ast_id s) (path_names s)
         (scope_names s) (node_chain s) (scope_chain s) (path_chain s)
         (name_map s) (definition_chain s) (path_parents s).

Definition set_report (v : Report) (s : Tifa) : Tifa :=
  mkTifa (source s) v (path_id s) (scope_id s) (ast_id s) (path_names s)
         (scope_names s) (node_chain s) (scope_chain s) (path_chain s)
         (name_map s) (definition_chain s) (path_parents s).

Definition set_ast_id (v : Z) (s : Tifa) : Tifa :=
  mkTifa (source s) (report s) (path_id s) (scope_id s) v (path_names s)
         (scope_names s) (node_chain s) (scope_chain s) (path_chain s)
         (name_map s) (definition_chain s) (path_parents s).

Definition set_node_chain (v : list node) (s : Tifa) : Tifa :=
  mkTifa (source s) (report s) (path_id s) (scope_id s) (ast_id s)
         (path_names s) (scope_names s) v (scope_chain s) (path_chain s)
         (name_map s) (definition_chain s) (path_parents s).

Definition set_name_map (v : name_map_t) (s : Tifa) : Tifa :=
  mkTifa (source s) (report s) (path_id s) (scope_id s) (ast_id s)
         (path_names s) (scope_names s) (node_chain s) (scope_chain s)
         (path_chain s) v (definition_chain s) (path_parents s).

(** ** The monad of methods: a result and the object as the call left it *)

Definition M (A : Type) : Type := Tifa -> result A * Tifa.

Definition ret {A} (a : A) : M A := fun s => (Ok a, s).

Definition raise {A} (e : exn) : M A := fun s => (Err e, s).

Definition bind {A B} (m : M A) (f : A -> M B) : M B :=
  fun s =>
    match m s with
    | (Ok a, s') => f a s'
    | (Err e, s') => (Err e, s')
    end.

Definition gets {A} (f : Tifa -> A) : M A := fun s => (Ok (f s), s).

Definition modify (f : Tifa -> Tifa) : M unit := fun s => (Ok tt, f s).

(** A computation that only reads the object. *)
Definition reads {A} (f : Tifa -> result A) : M A := fun s => (f s, s).

Definition lift {A} (r : result A) : M A := fun s => (r, s).

Declare Scope tifa_scope.
Delimit Scope tifa_scope with tifa.
Notation "x <- m ;; k" := (bind m (fun x => k))
  (at level 61, m at next level, right associativity) : tifa_scope.
Notation "m ;; k" := (bind m (fun _ => k))
  (at level 61, right associativity) : tifa_scope.
Open Scope tifa_scope.

(** [for x in l: f(x)]. *)
Definition for_each {A} (f : A -> M unit) : list A -> M unit :=
  fix go (l : list A) : M unit :=
    match l with
    | [] => ret tt
    | x :: l' => f x ;; go l'
    end.

(** [when c: m]. *)
Definition when (c : bool) (m : M unit) : M unit :=
  if c then m else ret tt.

(** ** Reporting *)

(** [locate]. *)
Definition locate : M Position :=
  reads (fun s => (n <- py_last (node_chain s) ;; node_position n)%res).

(** [report_issue(issue, data)]. *)
Definition report_issue (issue : string) (data : issue_data) : M unit :=
  data' <- (if dict_mem String.eqb "position" data then ret data
            else (pos <- locate ;;
                  ret (dict_set String.eqb "position"
                                (d_position (Some pos)) data))) ;;
  found <- reads (fun s => dict_item String.eqb issue (issues (report s))) ;;
  modify (fun s =>
            let r := report s in
            set_report
              (mkReport (success r) (error r)
                        (dict_set String.eqb issue (found ++ [data'])%list (issues r))
                        (variables r) (top_level_variables r))
              s).

(** ** Scopes and names *)

(** ["/".join(map(str, chain))]. *)
Definition chain_str (chain : list Z) : string := join "/" (map str chain).

(** [_scope_chain_str(name)]: [if name] fails for [None] and for [""]. *)
Definition _scope_chain_str (name : option string) (s : Tifa) : string :=
  match name with
  | Some (String c n) => chain_str (scope_chain s) ++ "/" ++ String c n
  | _ => chain_str (scope_chain s)
  end.

(** [prefix + "/" + name], which needs a string for [name]. *)
Definition slash_name (prefix : string) (name : option string) : result string :=
  match name with
  | Some n => Ok (prefix ++ "/" ++ n)
  | None => Err TypeError
  end.

(** The inner loop of [find_variable_scope], over the open paths. *)
Fixpoint find_in_paths (nm : name_map_t) (chain : list Z) (name : option string)
         (scope_index : nat) (paths : list Z) : result (option Identifier) :=
  match paths with
  | [] => Ok None
  | path_id :: paths' =>
      (path <- dict_item Z.eqb path_id nm ;;
       full_name <- slash_name (chain_str (firstn scope_index chain)) name ;;
       match dict_get String.eqb full_name path with
       | Some st =>
           let is_root_scope := Nat.eqb scope_index 0 in
           Ok (Some (mkIdentifier true is_root_scope full_name (Some st)))
       | None => find_in_paths nm chain name scope_index paths'
       end)%res
  end.

(** The outer loop, over [enumerate(self.scope_chain)]. *)
Fixpoint find_in_scopes (nm : name_map_t) (chain : list Z) (name : option string)
         (paths : list Z) (indices : list nat) : result Identifier :=
  match indices with
  | [] => Ok Identifier_False
  | scope_index :: indices' =>
      (found <- find_in_paths nm chain name scope_index paths ;;
       match found with
       | Some i => Ok i
       | None => find_in_scopes nm chain name paths indices'
       end)%res
  end.

Definition find_variable_scope_in (name : option string) (s : Tifa)
  : result Identifier :=
  find_in_scopes (name_map s) (scope_chain s) name (path_chain s)
                 (seq 0 (length (scope_chain s))).

(** [find_variable_scope(name)]. *)
Definition find_variable_scope (name : option string) : M Identifier :=
  reads (find_variable_scope_in name).

(** [name == unscoped_name]. *)
Definition name_eqb (name : option string) (unscoped : string) : bool :=
  match name with
  | Some n => String.eqb n unscoped
  | None => false
  end.

Fixpoint find_out_in_path (name : option string) (path : sdict State)
  : option Identifier :=
  match path with
  | [] => None
  | (full_name, st) :: path' =>
      let unscoped_name := rsplit_last slash full_name in
      if name_eqb name unscoped_name
      then Some (mkIdentifier true false unscoped_name (Some st))
      else find_out_in_path name path'
  end.

Fixpoint find_out_in_paths (name : option string) (nm : name_map_t)
  : Identifier :=
  match nm with
  | [] => Identifier_False
  | (_, path) :: nm' =>
      match find_out_in_path name path with
      | Some i => i
      | None => find_out_in_paths name nm'
      end
  end.

(** [find_variable_out_of_scope(name)]. *)
Definition find_variable_out_of_scope (name : option string) : M Identifier :=
  gets (fun s => find_out_in_paths name (name_map s)).

(** [Tifa.in_scope(full_name, scope_chain)]: a list of strings compared
    with a list of ints. *)
Definition in_scope (full_name : string) (scope_chain : list Z) : bool :=
  let name_scopes := drop_last (split slash full_name) in
  let checking_scopes := rev scope_chain in
  py_list_eq_str_int name_scopes checking_scopes.

(** [self.path_chain[0]]. *)
Definition first_path : M Z :=
  reads (fun s => match path_chain s with
                  | p :: _ => Ok p
                  | [] => Err IndexError
                  end).

(** [self.name_map[path][full_name] = state]. *)
Definition name_map_setitem (path : Z) (full_name : string) (st : State)
  : M unit :=
  d <- reads (fun s => dict_item Z.eqb path (name_map s)) ;;
  modify (fun s =>
            set_name_map
              (dict_set Z.eqb path (dict_set String.eqb full_name st d)
                        (name_map s))
              s).

(** [trace_state(state, method)]. *)
Definition trace_state (state : option State) (method : string) : M State :=
  position <- locate ;;
  match state with
  | Some st => lift (State_copy st method position)
  | None => raise AttributeError
  end.

(** [variable.state.X] for an attribute [X] of a State. *)
Definition state_attr {A} (state : option State) (f : State -> A) : M A :=
  match state with
  | Some st => ret (f st)
  | None => raise AttributeError
  end.

Definition with_type (t : pyval) (st : State) : State :=
  mkState (st_name st) (st_trace st) t (st_method st) (st_position st)
          (st_over_position st) (st_read st) (st_set st) (st_over st).

Definition with_read (v : tri) (st : State) : State :=
  mkState (st_name st) (st_trace st) (st_type st) (st_method st)
          (st_position st) (st_over_position st) v (st_set st) (st_over st).

Definition with_set (v : tri) (st : State) : State :=
  mkState (st_name st) (st_trace st) (st_type st) (st_method st)
          (st_position st) (st_over_position st) (st_read st) v (st_over st).

(** [store_variable(name, type)]. *)
Definition store_variable (name : option string) (type : pyval) : M State :=
  full_name <- gets (_scope_chain_str name) ;;
  current_path <- first_path ;;
  variable <- find_variable_scope name ;;
  if negb (id_exists variable) then
    (* Create a new instance of the variable on the current path *)
    position <- locate ;;
    let new_state := mkState name [] type "store" position None no yes no in
    name_map_setitem current_path full_name new_state ;;
    ret new_state
  else
    new_state <- trace_state (id_state variable) "store" ;;
    when (negb (id_in_scope variable))
         (report_issue "Write out of scope" [("name", d_name name)]) ;;
    (* Type change? *)
    old <- state_attr (id_state variable) st_type ;;
    same <- lift (are_types_equal type old) ;;
    when (negb same)
         (report_issue "Type changes"
                       [("name", d_name name); ("old", d_type old);
                        ("new", d_type type)]) ;;
    let new_state := with_type type new_state in
    (* Overwritten? *)
    was_set <- state_attr (id_state variable) st_set ;;
    was_read <- state_attr (id_state variable) st_read ;;
    new_state' <-
      (if tri_eqb was_set yes && tri_eqb was_read no
       then raise NameError          (* [position] is not bound here *)
       else ret (with_read no (with_set yes new_state))) ;;
    name_map_setitem current_path full_name new_state' ;;
    ret new_state'.

(** [load_variable(name)]. *)
Definition load_variable (name : option string) : M State :=
  full_name <- gets (_scope_chain_str name) ;;
  current_path <- first_path ;;
  variable <- find_variable_scope name ;;
  if negb (id_exists variable) then
    out_of_scope_var <- find_variable_out_of_scope name ;;
    (* Create a new instance of the variable on the current path *)
    (if id_exists out_of_scope_var
     then report_issue "Read out of scope" [("name", d_name name)]
     else report_issue "Undefined variables" [("name", d_name name)]) ;;
    position <- locate ;;
    let new_state :=
      mkState name [] (VType UnknownType) "load" position None yes no no in
    name_map_setitem current_path full_name new_state ;;
    ret new_state
  else
    new_state <- trace_state (id_state variable) "load" ;;
    was_set <- state_attr (id_state variable) st_set ;;
    when (tri_eqb was_set no)
         (report_issue "Undefined variables" [("name", d_name name)]) ;;
    when (tri_eqb was_set maybe)
         (report_issue "Possibly undefined variables" [("name", d_name name)]) ;;
    let new_state := with_read yes new_state in
    if negb (id_in_scope variable) then
      name_map_setitem current_path (id_scoped_name variable) new_state ;;
      ret new_state
    else
      raise NameError.                (* [newState] is not bound *)

(** The loop of [load_module] over [module_names], from [base_module]. *)
Fixpoint walk_modules (chain : string) (base_module : Ty) (names : list string)
  : M Ty :=
  match names with
  | [] => ret base_module
  | module :: names' =>
      match base_module with
      | ModuleType _ submodules _ =>
          match dict_get String.eqb module submodules with
          | Some sub => walk_modules chain sub names'
          | None =>
              report_issue "Submodule not found"
                           [("name", d_name (Some chain))] ;;
              walk_modules chain base_module names'
          end
      | _ =>
          report_issue "Submodule not found"
                       [("name", d_name (Some chain))] ;;
          walk_modules chain base_module names'
      end
  end.

(** [load_module(chain)]. *)
Definition load_module (chain : string) : M Ty :=
  let module_names := split dot chain in
  match dict_get String.eqb (hd EmptyString module_names) MODULES with
  | Some base_module => walk_modules chain base_module module_names
  | None =>
      report_issue "Module not found" [("name", d_name (Some chain))] ;;
      ret ModuleType_default
  end.

(** The body of the loop of [_finish_scope], for one name of the path. *)
Definition finish_entry (path_id : Z) (entry : string * State) : M unit :=
  let name := fst entry in
  chain <- gets scope_chain ;;
  when (in_scope name chain)
       (state <- reads (fun s =>
                          (d <- dict_item Z.eqb path_id (name_map s) ;;
                           dict_item String.eqb name d)%res) ;;
        when (tri_eqb (st_over state) yes)
             (let position := st_over_position state in
              report_issue "Overwritten variables"
                           [("name", d_name (st_name state));
                            ("position", d_position position)]) ;;
        when (tri_eqb (st_read state) no)
             (report_issue "Unread variables"
                           [("name", d_name (st_name state));
                            ("type", d_type (st_type state))])).

(** [_finish_scope]. *)
Definition _finish_scope : M unit :=
  path_id <- first_path ;;
  names <- reads (fun s => dict_item Z.eqb path_id (name_map s)) ;;
  for_each (finish_entry path_id) names.

(* ===================================================================== *)
(** * The visitor *)
(* ===================================================================== *)

(** [identify_caller(node)]; the branch for attributes and subscripts
    names [nodevalue], which is not bound. *)
Fixpoint identify_caller (n : node) : result (option string) :=
  match n with
  | ast_Name id _ _ => Ok (Some id)
  | ast_Call func _ _ _ => identify_caller func
  | ast_Attribute _ _ _ _ | ast_Subscript _ _ _ _ => Err NameError
  | _ => Ok None
  end.

(** The start of [visit]: push the node and look for an action after a
    return. *)
Definition visit_enter (n : node) : M unit :=
  modify (fun s => set_node_chain (node_chain s ++ [n])%list s) ;;
  modify (fun s => set_ast_id (ast_id s + 1) s) ;;
  chain <- gets scope_chain ;;
  when (Nat.ltb 1 (length chain))
       (return_state <- find_variable_scope (Some "*return") ;;
        when (id_exists return_state && id_in_scope return_state)
             (was_set <- state_attr (id_state return_state) st_set ;;
              when (tri_eqb was_set yes)
                   (report_issue "Action after return" []))).

(** The end of [visit]: pop the node; [None] becomes [UnknownType()]. *)
Definition visit_leave (result : pyval) : M pyval :=
  modify (fun s => set_ast_id (ast_id s - 1) s) ;;
  chain <- gets node_chain ;;
  match chain with
  | [] => raise IndexError
  | _ :: _ =>
      modify (set_node_chain (removelast chain)) ;;
      ret (match result with
           | VNone => VType UnknownType
           | _ => result
           end)
  end.

(** [visit_Name]. *)
Definition visit_Name (name : string) (ctx : node) : M pyval :=
  when (String.eqb name "___") (report_issue "Unconnected blocks" []) ;;
  if is_Load ctx then
    if String.eqb name "True" || String.eqb name "False" then
      ret (VType BoolType)
    else if String.eqb name "None" then
      ret (VType NoneType)
    else
      variable <- find_variable_scope (Some name) ;;
      match dict_get String.eqb name BUILTINS with
      | Some builtin =>
          if negb (id_exists variable) then ret (VType builtin)
          else (state <- load_variable (Some name) ;; ret (st_type state))
      | None =>
          state <- load_variable (Some name) ;; ret (st_type state)
      end
  else
    variable <- find_variable_scope (Some name) ;;
    if id_exists variable then state_attr (id_state variable) st_type
    else ret (VType UnknownType).

(** The operator part of [visit_BinOp], after both operands are visited.
    The report of a miss reads [node.op.name], and an operator node has no
    such attribute. *)
Definition binop_result (op : operator) (left right : pyval) : M pyval :=
  if isinstance left cUnknownType || isinstance right cUnknownType then
    ret (VType UnknownType)
  else
    match binop_lookup op left right with
    | Some op_lookup => lift (call_rule op_lookup left right)
    | None => raise AttributeError
    end.

(** The operator part of [visit_AugAssign]. *)
Definition augassign_result (name : option string) (op : operator)
           (left right : pyval) : M pyval :=
  load_variable name ;;
  if isinstance left cUnknownType || isinstance right cUnknownType then
    ret (VType UnknownType)
  else
    match binop_lookup op left right with
    | Some op_lookup =>
        result_type <- lift (call_rule op_lookup left right) ;;
        store_variable name result_type ;;
        ret result_type
    | None => raise AttributeError
    end.

(** The operator part of [visit_UnaryOp].  The table is asked for
    [type(node.op)] at both levels; were the second lookup to succeed, the
    third would test membership in a class object. *)
Definition unaryop_result (op : unaryop) (operand : pyval) : M pyval :=
  match op with
  | Not => ret (VType BoolType)
  | _ =>
      if isinstance operand cUnknownType then ret (VType UnknownType)
      else
        match dict_get pyclass_eqb (c_unaryop op) VALID_UNARYOP_TYPES with
        | Some op_lookup =>
            if dict_mem pyclass_eqb (c_unaryop op) op_lookup
            then raise TypeError
            else ret (VType UnknownType)
        | None => ret (VType UnknownType)
        end
  end.

(** [alias.asname or alias.name]. *)
Definition alias_target (a : alias) : string :=
  match alias_asname a with
  | Some (String c n) => String c n
  | _ => alias_name a
  end.

(** [visit_Import]. *)
Definition visit_Import (names : list alias) : M unit :=
  for_each
    (fun a =>
       let asname := alias_target a in
       module_type <- load_module (alias_name a) ;;
       store_variable (Some asname) (VType module_type) ;;
       ret tt)
    names.

(** [visit_ImportFrom]. *)
Definition visit_ImportFrom (module : option string) (names : list alias)
  : M unit :=
  for_each
    (fun a =>
       let asname := alias_target a in
       module_type <-
         match module with
         | None => load_module (alias_name a)
         | Some module_name => load_module module_name
         end ;;
       locate ;;
       name_type <- lift (load_attr module_type (alias_name a)) ;;
       store_variable (Some asname) (VType name_type) ;;
       ret tt)
    names.

(** The [action] closure of [visit_Assign], which unpacks one target. *)
Fixpoint action (target : node) (type : pyval) {struct target} : M unit :=
  match target with
  | ast_Name id _ _ => store_variable (Some id) type ;; ret tt
  | ast_Tuple elts _ _ | ast_List elts _ _ =>
      (fix each (i : Z) (l : list node) {struct l} : M unit :=
         match l with
         | [] => ret tt
         | elt :: l' =>
             eltType <- lift (index type (LiteralNum i)) ;;
             action elt eltType ;;
             each (i + 1) l'
         end) 0 elts
  | _ => ret tt
  end.

(** [visit(node)]: the wrapper of [Tifa.visit] around the dispatch of
    [ast.NodeVisitor.visit], with [generic_visit] for the node kinds that
    have no method. *)
Fixpoint visit (n : node) {struct n} : M pyval :=
  visit_enter n ;;
  result <-
    match n with
    | ast_Name id ctx _ => visit_Name id ctx
    | ast_Assign targets value _ =>
        value_type <- visit value ;;
        for_each (fun t => visit t ;; ret tt) targets ;;
        for_each (fun t => action t value_type) targets ;;
        ret VNone
    | ast_AugAssign target op value _ =>
        right <- visit value ;;
        left <- visit target ;;
        name <- lift (identify_caller target) ;;
        augassign_result name op left right
    | ast_BinOp l op r _ =>
        left <- visit l ;;
        right <- visit r ;;
        binop_result op left right
    | ast_UnaryOp op operand _ =>
        operand_type <- visit operand ;;
        unaryop_result op operand_type
    | ast_Import names _ => visit_Import names ;; ret VNone
    | ast_ImportFrom module names _ => visit_ImportFrom module names ;; ret VNone
    | ast_Tuple elts ctx _ | ast_List elts ctx _ =>
        for_each (fun t => visit t ;; ret tt) elts ;;
        visit ctx ;;
        ret VNone
    | ast_Subscript value slice ctx _ =>
        visit value ;; visit slice ;; visit ctx ;; ret VNone
    | ast_Attribute value _ ctx _ =>
        visit value ;; visit ctx ;; ret VNone
    | ast_Call func args keywords _ =>
        visit func ;;
        for_each (fun t => visit t ;; ret tt) args ;;
        for_each (fun t => visit t ;; ret tt) keywords ;;
        ret VNone
    | ast_Other children _ =>
        for_each (fun t => visit t ;; ret tt) children ;;
        ret VNone
    | ast_Load | ast_Store => ret VNone
    end ;;
  visit_leave result.

(* ===================================================================== *)
(** * The driver *)
(* ===================================================================== *)

(** The report of an analyzer whose [name_map] attribute is about to be
    bound to another object: a report that holds the old name map object
    keeps that object, with what it holds. *)
Definition detached_report (s : Tifa) : Report :=
  let r := report s in
  match variables r with
  | OwnVariables _ => r
  | TheNameMap =>
      mkReport (success r) (error r) (issues r) (OwnVariables (name_map s))
               (top_level_variables r)
  end.

(** [_reset].  It binds [self.name_map] to a new dict. *)
Definition _reset : M unit :=
  modify (fun s =>
            let path_id := 0 in
            let scope_id := 0 in
            mkTifa (source s) (detached_report s) path_id scope_id 0
                   ["*Module"] ["*Module"] []
                   [scope_id] [path_id] [(path_id, [])] [] []).

(** [_collect_top_level_varaibles].  The test compares a string with a
    scope id; its branch starts by reading [fullName], which is not bound. *)
Definition _collect_top_level_varaibles : M unit :=
  modify (fun s =>
            let r := report s in
            set_report (mkReport (success r) (error r) (issues r)
                                 (variables r) (Some []))
                       s) ;;
  path <- first_path ;;
  main_path_vars <- reads (fun s => dict_item Z.eqb path (name_map s)) ;;
  for_each
    (fun entry : string * State =>
       let split_name := split slash (fst entry) in
       if Nat.eqb (length split_name) 2 then
         top <- reads (fun s => py_nth (scope_chain s) 0) ;;
         if py_eq_str_int (hd EmptyString split_name) top
         then raise NameError
         else ret tt
       else ret tt)
    main_path_vars.

(** [process_ast(ast_tree)].  After the visit, [report['variables']] is
    bound to the name map object itself, not to a copy of it. *)
Definition process_ast (ast_tree : node) : M Report :=
  _reset ;;
  (* Initialize a new, empty report *)
  modify (set_report _initialize_report) ;;
  (* Traverse every node *)
  visit ast_tree ;;
  (* Check afterwards *)
  modify (fun s =>
            let r := report s in
            set_report (mkReport (success r) (error r) (issues r)
                                 TheNameMap (top_level_variables r))
                       s) ;;
  _finish_scope ;;
  (* Collect top level variables *)
  _collect_top_level_varaibles ;;
  gets report.

Section Driver.
(** [ast.parse(code, filename)], the parser of Python's standard
    library. *)
Variable ast_parse : string -> string -> result node.

(** [process_code(code, filename)].  The handler stores the error report
    and raises the error again; the [return] after it is never reached. *)
Definition process_code (code : string) (filename : string) : M Report :=
  modify (set_source (match code with
                      | EmptyString => []
                      | _ => split newline code
                      end)) ;;
  fun s =>
    match (ast_tree <- lift (ast_parse code filename) ;;
           process_ast ast_tree) s with
    | (Ok r, s') => (Ok r, s')
    | (Err error, s') =>
        (modify (set_report (_error_report error)) ;;
         raise error) s'
    end.
End Driver.

(* ===================================================================== *)
(** * States and observations *)
(* ===================================================================== *)

(** An analyzer as [process_ast] leaves it after [_reset] and the fresh
    report, standing on one node. *)
Definition at_node (n : node) : Tifa :=
  mkTifa [] _initialize_report 0 0 1 ["*Module"] ["*Module"] [n]
         [0] [0] [(0, [])] [] [].

Definition line1 : node := ast_Name "x" ast_Store (mkPosition 0 1).
Definition line2 : node := ast_Name "x" ast_Store (mkPosition 0 2).

(** The three sequence classes [merge_types] tests for, as constructors. *)
Inductive sequence_class : Type := as_list | as_set | as_generator.

Definition sequence_type (c : sequence_class) (subtype : Ty) (empty : bool) : Ty :=
  match c with
  | as_list => ListType subtype empty
  | as_set => SetType subtype empty
  | as_generator => GeneratorType subtype empty
  end.

(** A parser that rejects every source text. *)
Definition rejecting_parser (code filename : string) : result node :=
  Err SyntaxError.

(** The analyzer before any run. *)
Definition blank : Tifa :=
  mkTifa [] (mkReport true None [] (OwnVariables []) None)
         0 0 0 [] [] [] [] [] [] [] [].

(** What a call returns or raises, and the object it leaves. *)
Definition run {A} (m : M A) (s : Tifa) : result A := fst (m s).
Definition exec {A} (m : M A) (s : Tifa) : Tifa := snd (m s).

(** [self.report['variables']], as a reader of the report finds it. *)
Definition report_variables (s : Tifa) : name_map_t :=
  match variables (report s) with
  | OwnVariables d => d
  | TheNameMap => name_map s
  end.

(** The records filed under one issue kind. *)
Definition issues_of (kind : string) (s : Tifa) : list issue_data :=
  match dict_get String.eqb kind (issues (report s)) with
  | Some l => l
  | None => []
  end.

(** The records a state holds under 'Submodule not found'. *)
Definition submodule_issues (s : Tifa) : list issue_data :=
  issues_of "Submodule not found" s.

(** The State recorded for a fully qualified name on a path. *)
Definition recorded (path : Z) (full_name : string) (s : Tifa) : option State :=
  match dict_get Z.eqb path (name_map s) with
  | Some d => dict_get String.eqb full_name d
  | None => None
  end.

(** The State a first write records. *)
Definition stored_state (x : string) (t : pyval) (pos : Position) : State :=
  mkState (Some x) [] t "store" pos None no yes no.

(** The State a read records for a name [find_variable_scope] misses. *)
Definition loaded_state (x : string) (pos : Position) : State :=
  mkState (Some x) [] (VType UnknownType) "load" pos None yes no no.

(** The analyzer right after [_reset] and the fresh report of
    [process_ast], with no source text. *)
Definition reset_state : Tifa :=
  mkTifa [] _initialize_report 0 0 0 ["*Module"] ["*Module"] []
         [0] [0] [(0, [])] [] [].

(** What [process_ast] does after [_reset] and the fresh report. *)
Definition analysis (ast_tree : node) : M Report :=
  visit ast_tree ;;
  modify (fun s =>
            let r := report s in
            set_report (mkReport (success r) (error r) (issues r)
                                 TheNameMap (top_level_variables r))
                       s) ;;
  _finish_scope ;;
  _collect_top_level_varaibles ;;
  gets report.

(** A method that neither reads nor writes [self.source]: run on an object
    with another source text it gives the same result and leaves the same
    object, but for that text. *)
Definition frame {A} (m : M A) : Prop :=
  forall src s,
    m (set_source src s) = (fst (m s), set_source src (snd (m s))).

(** A property of the type a field may hold, and of the types a
    [DictType.values] holds. *)
Definition opt_all (P : Ty -> Prop) (o : option Ty) : Prop :=
  match o with Some t => P t | None => True end.

Definition oom_all (P : Ty -> Prop) (o : OneOrMany Ty) : Prop :=
  match o with NoValue => True | One t => P t | Many l => Forall P l end.

(** The loop of [are_types_equal] over [zip(left.values, right.values)]. *)
Definition values_equal : list Ty -> list Ty -> result bool :=
  fix loop (ls rs : list Ty) {struct ls} : result bool :=
    match ls, rs with
    | l :: ls', r :: rs' =>
        (b <- are_types_equal_inst l (VType r) ;;
         if (b : bool) then loop ls' rs' else Ok false)%res
    | _, _ => Ok true
    end.

(** An analyzer on which [find_variable_scope] does find [x]: the name is
    recorded under the key of the empty scope prefix. *)
Definition seen_state : Tifa :=
  mkTifa [] _initialize_report 0 0 1 ["*Module"] ["*Module"] [line1]
         [0] [0]
         [(0, [("/x", mkState (Some "x") [] (VType NumType) "store"
                              (mkPosition 0 1) None no yes no)])]
         [] [].

(** A method that keeps a property of the analyzer, whether it returns or
    raises. *)
Definition keeps (I : Tifa -> Prop) {A} (m : M A) : Prop :=
  forall s, I s -> I (snd (m s)).

(** The issue kinds the visitor of this version can file during
    [process_ast]. *)
Definition reported_kinds : list string :=
  [ "Unconnected blocks"; "Read out of scope"; "Undefined variables";
    "Submodule not found"; "Module not found" ].

(** An analyzer in the module scope whose report is a successful one and
    holds, under every kind outside [reported_kinds], what a fresh report
    holds. *)
Definition calm (s : Tifa) : Prop :=
  scope_chain s = [0] /\
  success (report s) = true /\
  error (report s) = None /\
  forall K, ~ In K reported_kinds ->
            dict_get String.eqb K (issues (report s))
            = dict_get String.eqb K (issues _initialize_report).

(** A module all the way down: a [ModuleType] whose submodules are such
    modules. *)
Fixpoint module_tree (t : Ty) : bool :=
  match t with
  | ModuleType _ submodules _ =>
      (fix all (l : list (string * Ty)) : bool :=
         match l with
         | [] => true
         | entry :: l' => module_tree (snd entry) && all l'
         end) submodules
  | _ => false
  end.

(** An analyzer after a run of [process_ast], on an empty module, that
    stands on a node again. *)
Definition after_run : Tifa :=
  set_node_chain [line1] (exec (process_ast (ast_Other [] None)) blank).

(** A method that, when it returns, leaves the node stack and the node
    counter as it found them. *)
Definition restores {A} (m : M A) : Prop :=
  forall s a s',
    m s = (Ok a, s') -> node_chain s' = node_chain s /\ ast_id s' = ast_id s.

(* ===================================================================== *)
(** * Properties *)
(* ===================================================================== *)

Example split_dotted : split dot "matplotlib.pyplot" = ["matplotlib"; "pyplot"].
Proof. reflexivity. Qed.

Example split_empty : split dot "" = [""].
Proof. reflexivity. Qed.

Example scoped_name_example : chain_str [0; 2] ++ "/" ++ "x" = "0/2/x".
Proof. reflexivity. Qed.

(** ** The equivalence test *)

(** C4.  For every value [t] that can stand for a type, [UnknownType]
    itself included, [are_types_equal] answers [False] when either side is
    an [UnknownType]. *)
Theorem are_types_equal_Unknown :
  forall t : pyval,
    are_types_equal (VType UnknownType) t = Ok false /\
    are_types_equal t (VType UnknownType) = Ok false.
Proof.
  intro t; split.
  - destruct t; reflexivity.
  - destruct t as [ | l | c | l | l ]; try reflexivity;
      destruct l; reflexivity.
Qed.

(** C10.  For every [t], [are_types_equal] answers [False], and raises
    nothing, when either side is [None]. *)
Theorem are_types_equal_None :
  forall t : pyval,
    are_types_equal VNone t = Ok false /\
    are_types_equal t VNone = Ok false.
Proof.
  intro t; split.
  - reflexivity.
  - destruct t as [ | l | c | l | l ]; try reflexivity;
      destruct l; reflexivity.
Qed.

Example are_types_equal_lists :
  are_types_equal (VType (ListType NumType false)) (VType (ListType NumType false))
  = Ok true.
Proof. reflexivity. Qed.

Example are_types_equal_tuples_raise :
  are_types_equal (VType (TupleType [NumType])) (VType (TupleType [NumType]))
  = Err AttributeError.
Proof. reflexivity. Qed.

(** ** Merging and the operator table *)

(** C6, as the code has it.  On two list, set or generator types
    [merge_types] returns the right operand's subtype when the left operand
    is empty and a clone of the left operand's subtype otherwise.  On two
    tuple types, the rule the table holds for [+] between tuples, it returns
    the left subtypes followed by the right subtypes as a plain list. *)
Theorem merge_types_containers :
  (forall cl sl el cr sr er,
      merge_types (VType (sequence_type cl sl el)) (VType (sequence_type cr sr er))
      = Ok (VType (if el then sr else clone sl))) /\
  (forall l r,
      merge_types (VType (TupleType l)) (VType (TupleType r))
      = Ok (VList (l ++ r))) /\
  (forall l r,
      binop_lookup Add (VType (TupleType l)) (VType (TupleType r))
      = Some rule_merge_types).
Proof.
  split; [ | split ].
  - intros cl sl el cr sr er.
    destruct cl, cr, el; reflexivity.
  - intros l r; reflexivity.
  - intros l r; reflexivity.
Qed.

(** C6, the counterexample: merging the tuple types of [(1,)] and [("a",)]
    does not give a tuple type. *)
Lemma merge_types_tuple_counterexample :
  merge_types (VType (TupleType [NumType])) (VType (TupleType [StrType]))
  <> Ok (VType (TupleType [NumType; StrType])).
Proof. discriminate. Qed.

(** C7, at the failing input [Num + Num]: the table's rule is
    [NumType_any], and it returns the class [NumType], which is not an
    instance of [NumType]. *)
Theorem NumType_any_returns_the_class :
  binop_lookup Add (VType NumType) (VType NumType) = Some rule_NumType_any /\
  call_rule rule_NumType_any (VType NumType) (VType NumType) = Ok (VClass cNumType) /\
  isinstance (VClass cNumType) cNumType = false /\
  (forall left right,
      call_rule rule_NumType_any left right = Ok (VClass cNumType) /\
      call_rule rule_StrType_any left right = Ok (VClass cStrType) /\
      call_rule rule_BoolType_any left right = Ok (VClass cBoolType)).
Proof.
  repeat split; reflexivity.
Qed.

(** ** Modules *)

(** C5, at the failing input ["math"]: the module is found and returned,
    and one 'Submodule not found' issue is filed all the same. *)
Theorem load_module_math :
  exists fields,
    run (load_module "math") (at_node line1) = Ok (ModuleType "math" [] fields) /\
    dict_get String.eqb "math" MODULES = Some (ModuleType "math" [] fields) /\
    issues_of "Submodule not found" (exec (load_module "math") (at_node line1))
    = [[("name", d_name (Some "math"));
        ("position", d_position (Some (mkPosition 0 1)))]].
Proof.
  eexists; repeat split; vm_compute; reflexivity.
Qed.

Example load_module_pyplot :
  length (issues_of "Submodule not found"
            (exec (load_module "matplotlib.pyplot") (at_node line1))) = 1%nat /\
  issues_of "Module not found"
            (exec (load_module "matplotlib.pyplot") (at_node line1)) = [].
Proof. split; vm_compute; reflexivity. Qed.

Example load_module_unknown :
  run (load_module "numpy") (at_node line1) = Ok ModuleType_default /\
  length (issues_of "Module not found"
            (exec (load_module "numpy") (at_node line1))) = 1%nat /\
  issues_of "Submodule not found"
            (exec (load_module "numpy") (at_node line1)) = [].
Proof. repeat split; vm_compute; reflexivity. Qed.

(** ** The state store *)

(** C1, at the failing input: on a fresh analyzer [store_variable] records
    [x] under ["0/x"], and [find_variable_scope] then answers that [x] does
    not exist. *)
Theorem find_after_store_misses :
  exists st,
    run (store_variable (Some "x") (VType NumType)) (at_node line1) = Ok st /\
    recorded 0 "0/x" (exec (store_variable (Some "x") (VType NumType))
                           (at_node line1)) = Some st /\
    run (store_variable (Some "x") (VType NumType) ;;
         find_variable_scope (Some "x")) (at_node line1)
    = Ok Identifier_False.
Proof.
  eexists; repeat split; vm_compute; reflexivity.
Qed.

(** C3, at the failing input: [x] is stored at line 1 and again at line 2
    with no load between.  The second State has [over = 'no'] and no
    [over_position], and the sweep files nothing under 'Overwritten
    variables'. *)
Theorem second_store_not_overwritten :
  let twice :=
    store_variable (Some "x") (VType NumType) ;;
    modify (set_node_chain [line2]) ;;
    store_variable (Some "x") (VType NumType) in
  exists st,
    run twice (at_node line1) = Ok st /\
    recorded 0 "0/x" (exec twice (at_node line1)) = Some st /\
    st_over st = no /\
    st_over_position st = None /\
    run _finish_scope (exec twice (at_node line1)) = Ok tt /\
    issues_of "Overwritten variables"
              (exec _finish_scope (exec twice (at_node line1))) = [].
Proof.
  eexists; repeat split; vm_compute; reflexivity.
Qed.

(** ** Facts about dictionaries and scoped names *)

Section DictFacts.
Context {K V : Type} (eqb : K -> K -> bool).
Hypothesis eqb_eq : forall a b, eqb a b = true <-> a = b.

Lemma eqb_same : forall k, eqb k k = true.
Proof. intro k; apply eqb_eq; reflexivity. Qed.

Lemma eqb_differ : forall a b, a <> b -> eqb a b = false.
Proof.
  intros a b Hab. destruct (eqb a b) eqn:E; [ | reflexivity ].
  apply eqb_eq in E. contradiction.
Qed.

Lemma dict_get_set_same :
  forall (k : K) (v : V) d, dict_get eqb k (dict_set eqb k v d) = Some v.
Proof.
  intros k v d. induction d as [ | [k0 v0] d IH ]; simpl.
  - rewrite eqb_same. reflexivity.
  - destruct (eqb k k0) eqn:E; simpl; rewrite E; [ reflexivity | exact IH ].
Qed.

Lemma dict_get_set_other :
  forall (k k' : K) (v : V) d,
    k' <> k -> dict_get eqb k' (dict_set eqb k v d) = dict_get eqb k' d.
Proof.
  intros k k' v d Hne. induction d as [ | [k0 v0] d IH ]; simpl.
  - rewrite (eqb_differ _ _ Hne). reflexivity.
  - destruct (eqb k k0) eqn:E; simpl.
    + apply eqb_eq in E. subst k0.
      rewrite (eqb_differ _ _ Hne). reflexivity.
    + destruct (eqb k' k0); [ reflexivity | exact IH ].
Qed.
End DictFacts.

Lemma length_append :
  forall s1 s2 : string,
    String.length (s1 ++ s2) = (String.length s1 + String.length s2)%nat.
Proof.
  induction s1 as [ | c s1 IH ]; intro s2; simpl.
  - reflexivity.
  - rewrite IH. reflexivity.
Qed.

Lemma str_nonempty : forall n : Z, (1 <= String.length (str n))%nat.
Proof.
  intro n. unfold str.
  destruct (Z.to_int n) as [d | d]; destruct d; simpl; lia.
Qed.

Lemma chain_str_cons :
  forall a b rest,
    chain_str (a :: b :: rest) = str a ++ "/" ++ chain_str (b :: rest).
Proof. reflexivity. Qed.

(** A strict prefix of the scope chain prints shorter than the chain. *)
Lemma chain_str_prefix_shorter :
  forall chain i,
    (i < length chain)%nat ->
    (String.length (chain_str (firstn i chain))
     < String.length (chain_str chain))%nat.
Proof.
  induction chain as [ | a rest IH ]; intros i Hi; simpl in Hi.
  - lia.
  - destruct i as [ | i ].
    + destruct rest as [ | b rest ].
      * pose proof (str_nonempty a). simpl. unfold chain_str; simpl. lia.
      * rewrite chain_str_cons, length_append.
        pose proof (str_nonempty a). simpl firstn. unfold chain_str at 1; simpl.
        lia.
    + destruct rest as [ | b rest ]; [ simpl in Hi; lia | ].
      assert (Hi' : (i < length (b :: rest))%nat) by (simpl in *; lia).
      specialize (IH i Hi').
      rewrite chain_str_cons, length_append, length_append.
      destruct i as [ | i ].
      * simpl. unfold chain_str at 1; simpl. lia.
      * change (firstn (S (S i)) (a :: b :: rest))
          with (a :: b :: firstn i rest).
        rewrite chain_str_cons, length_append, length_append.
        change (b :: firstn i rest) with (firstn (S i) (b :: rest)).
        lia.
  Qed.

(** The key [store_variable] writes is none of the keys
    [find_variable_scope] tries. *)
Lemma scoped_key_differs :
  forall chain i x,
    (i < length chain)%nat ->
    chain_str (firstn i chain) ++ "/" ++ x <> chain_str chain ++ "/" ++ x.
Proof.
  intros chain i x Hi Heq.
  apply (f_equal String.length) in Heq.
  rewrite !length_append in Heq.
  pose proof (chain_str_prefix_shorter chain i Hi). lia.
Qed.

Lemma find_in_paths_exists :
  forall nm chain name i paths id,
    find_in_paths nm chain name i paths = Ok (Some id) -> id_exists id = true.
Proof.
  intros nm chain name i paths; induction paths as [ | a paths IH ];
    intros id H; simpl in H.
  - discriminate.
  - destruct (dict_item Z.eqb a nm) as [path | e]; simpl in H; [ | discriminate ].
    destruct (slash_name (chain_str (firstn i chain)) name) as [full | e];
      simpl in H; [ | discriminate ].
    destruct (dict_get String.eqb full path).
    + inversion H; reflexivity.
    + apply IH; exact H.
Qed.

Section AfterStore.
Variables (nm : name_map_t) (chain : list Z) (x : string).
Variables (p : Z) (d : sdict State) (st : State).
Hypothesis Hd : dict_get Z.eqb p nm = Some d.

Let full := chain_str chain ++ "/" ++ x.
Let nm' := dict_set Z.eqb p (dict_set String.eqb full st d) nm.

Lemma find_in_paths_after_store :
  forall i paths,
    (i < length chain)%nat ->
    find_in_paths nm chain (Some x) i paths = Ok None ->
    find_in_paths nm' chain (Some x) i paths = Ok None.
Proof.
  intros i paths Hi. induction paths as [ | a paths IH ]; intro H; simpl in *.
  - reflexivity.
  - unfold dict_item in *. destruct (Z.eq_dec a p) as [-> | Hne].
    + unfold nm'. rewrite (dict_get_set_same Z.eqb Z.eqb_eq).
      rewrite Hd in H. simpl in *.
      rewrite (dict_get_set_other String.eqb String.eqb_eq)
        by (apply scoped_key_differs; exact Hi).
      destruct (dict_get String.eqb _ d);
        [ discriminate | apply IH; exact H ].
    + unfold nm'. rewrite (dict_get_set_other Z.eqb Z.eqb_eq) by exact Hne.
      destruct (dict_get Z.eqb a nm) as [path | ]; simpl in *; [ | discriminate ].
      destruct (dict_get String.eqb _ path);
        [ discriminate | apply IH; exact H ].
Qed.

Lemma find_in_scopes_after_store :
  forall paths indices,
    (forall i, In i indices -> (i < length chain)%nat) ->
    find_in_scopes nm chain (Some x) paths indices = Ok Identifier_False ->
    find_in_scopes nm' chain (Some x) paths indices = Ok Identifier_False.
Proof.
  intros paths indices. induction indices as [ | i indices IH ];
    intros Hlt H; simpl in *.
  - reflexivity.
  - destruct (find_in_paths nm chain (Some x) i paths) as [[id | ] | e] eqn:E;
      simpl in H.
    + apply find_in_paths_exists in E. inversion H; subst id.
      simpl in E. discriminate E.
    + rewrite (find_in_paths_after_store i paths (Hlt i (or_introl eq_refl)) E).
      simpl. apply IH; [ intros j Hj; apply Hlt; right; exact Hj | exact H ].
    + discriminate.
Qed.
End AfterStore.

(** ** Writing, then reading *)

Lemma store_variable_fresh :
  forall x t s pos p ps d,
    run locate s = Ok pos ->
    path_chain s = p :: ps ->
    dict_get Z.eqb p (name_map s) = Some d ->
    find_variable_scope_in (Some x) s = Ok Identifier_False ->
    store_variable (Some x) t s
    = (Ok (stored_state x t pos),
       set_name_map
         (dict_set Z.eqb p
            (dict_set String.eqb (_scope_chain_str (Some x) s)
                      (stored_state x t pos) d)
            (name_map s))
         s).
Proof.
  intros x t s pos p ps d Hloc Hp Hd Hfind.
  unfold run, locate, reads in Hloc; simpl in Hloc.
  unfold store_variable, bind, gets, first_path, find_variable_scope, reads,
    locate, name_map_setitem, modify, ret, dict_item.
  rewrite Hp, Hfind. simpl. rewrite Hloc.
  unfold bind, reads, dict_item. rewrite Hd. reflexivity.
Qed.

Lemma bind_ok :
  forall {A B} (m : M A) (f : A -> M B) s a s',
    m s = (Ok a, s') -> bind m f s = f a s'.
Proof. intros A B m f s a s' H. unfold bind. rewrite H. reflexivity. Qed.

Lemma bind_err :
  forall {A B} (m : M A) (f : A -> M B) s e s',
    m s = (Err e, s') -> bind m f s = (Err e, s').
Proof. intros A B m f s e s' H. unfold bind. rewrite H. reflexivity. Qed.

Lemma trace_state_raises :
  forall state method s, exists e, trace_state state method s = (Err e, s).
Proof.
  intros state method s. unfold trace_state, bind, locate, reads.
  destruct (rbind (py_last (node_chain s)) node_position) as [pos | e];
    [ | eexists; reflexivity ].
  destruct state; eexists; reflexivity.
Qed.

(** A name that [find_variable_scope] does find cannot be written: the
    copy of its State raises. *)
Lemma store_variable_existing_raises :
  forall x t s id,
    find_variable_scope_in x s = Ok id ->
    id_exists id = true ->
    exists e, run (store_variable x t) s = Err e.
Proof.
  intros x t s id Hfind Hex.
  unfold run, store_variable.
  rewrite (bind_ok (gets (_scope_chain_str x)) _ s _ s eq_refl).
  destruct (path_chain s) as [ | p ps ] eqn:Hp.
  - rewrite (bind_err first_path _ s IndexError s)
      by (unfold first_path, reads; rewrite Hp; reflexivity).
    eexists; reflexivity.
  - rewrite (bind_ok first_path _ s p s)
      by (unfold first_path, reads; rewrite Hp; reflexivity).
    rewrite (bind_ok (find_variable_scope x) _ s id s)
      by (unfold find_variable_scope, reads; rewrite Hfind; reflexivity).
    rewrite Hex. cbn [negb].
    destruct (trace_state_raises (id_state id) "store" s) as [e He].
    rewrite (bind_err _ _ _ _ _ He).
    eexists; reflexivity.
Qed.

Lemma report_issue_name_only :
  forall kind x s pos l,
    run locate s = Ok pos ->
    dict_get String.eqb kind (issues (report s)) = Some l ->
    exists r, report_issue kind [("name", d_name x)] s = (Ok tt, set_report r s).
Proof.
  intros kind x s pos l Hloc Hk.
  unfold run, locate, reads in Hloc; simpl in Hloc.
  unfold report_issue, bind, reads, locate, ret, modify, dict_item. simpl.
  rewrite Hloc, Hk. eexists; reflexivity.
Qed.

Lemma load_variable_unseen :
  forall x s pos p ps d,
    run locate s = Ok pos ->
    path_chain s = p :: ps ->
    dict_get Z.eqb p (name_map s) = Some d ->
    find_variable_scope_in (Some x) s = Ok Identifier_False ->
    dict_mem String.eqb "Read out of scope" (issues (report s)) = true ->
    dict_mem String.eqb "Undefined variables" (issues (report s)) = true ->
    exists r,
      load_variable (Some x) s
      = (Ok (loaded_state x pos),
         set_name_map
           (dict_set Z.eqb p
              (dict_set String.eqb (_scope_chain_str (Some x) s)
                        (loaded_state x pos) d)
              (name_map s))
           (set_report r s)).
Proof.
  intros x s pos p ps d Hloc Hp Hd Hfind Hread Hundef.
  unfold dict_mem in Hread, Hundef.
  destruct (dict_get String.eqb "Read out of scope" (issues (report s)))
    as [l1 | ] eqn:E1; [ | discriminate ].
  destruct (dict_get String.eqb "Undefined variables" (issues (report s)))
    as [l2 | ] eqn:E2; [ | discriminate ].
  assert (Hissue :
            exists r,
              (if id_exists (find_out_in_paths (Some x) (name_map s))
               then report_issue "Read out of scope" [("name", d_name (Some x))]
               else report_issue "Undefined variables" [("name", d_name (Some x))])
                s = (Ok tt, set_report r s)).
  { destruct (id_exists (find_out_in_paths (Some x) (name_map s)));
      eapply report_issue_name_only; eassumption. }
  destruct Hissue as [r Hr]. exists r.
  unfold run, locate, reads in Hloc; simpl in Hloc.
  unfold load_variable.
  unfold bind at 1. unfold gets at 1.
  unfold bind at 1. unfold first_path, reads at 1. rewrite Hp.
  unfold bind at 1. unfold find_variable_scope, reads at 1. rewrite Hfind.
  cbn [id_exists Identifier_False negb].
  unfold bind at 1. unfold find_variable_out_of_scope, gets at 1.
  unfold bind at 1. rewrite Hr.
  unfold bind, locate, reads, name_map_setitem, modify, ret, dict_item.
  simpl. rewrite Hloc.
  unfold bind, reads, dict_item. simpl. rewrite Hd. reflexivity.
Qed.

(** Recording a State under the name's own key, as the create branch of
    [store_variable] does, changes nothing for [find_variable_scope]: a name
    it missed before the write it misses after it. *)
Lemma find_variable_scope_after_store :
  forall x s p d st,
    x <> "" ->
    dict_get Z.eqb p (name_map s) = Some d ->
    find_variable_scope_in (Some x) s = Ok Identifier_False ->
    find_variable_scope_in (Some x)
      (set_name_map
         (dict_set Z.eqb p
            (dict_set String.eqb (_scope_chain_str (Some x) s) st d)
            (name_map s))
         s)
    = Ok Identifier_False.
Proof.
  intros x s p d st Hx Hd Hfind.
  assert (Hfull : _scope_chain_str (Some x) s
                  = chain_str (scope_chain s) ++ "/" ++ x).
  { unfold _scope_chain_str. destruct x; [ contradiction | reflexivity ]. }
  rewrite Hfull. unfold find_variable_scope_in. simpl.
  apply find_in_scopes_after_store; [ exact Hd | | exact Hfind ].
  intros i Hi. apply in_seq in Hi. lia.
Qed.

(** C2.  On an analyzer that can report and place a State, a name that is
    not visible yet is written by [store_variable] and then read by
    [load_variable]: both calls return, the State recorded last for the
    name has [read = 'yes'], and the step of the end-of-scope sweep for that
    name leaves the report as it is, so no 'Unread variables' issue is filed
    for it. *)
Theorem store_then_load_is_read :
  forall (x : string) (t : pyval) (s : Tifa) (pos : Position)
         (p : Z) (ps : list Z),
    x <> "" ->
    run locate s = Ok pos ->
    path_chain s = p :: ps ->
    dict_mem Z.eqb p (name_map s) = true ->
    find_variable_scope_in (Some x) s = Ok Identifier_False ->
    dict_mem String.eqb "Read out of scope" (issues (report s)) = true ->
    dict_mem String.eqb "Undefined variables" (issues (report s)) = true ->
    exists st1 s1 st2 s2,
      store_variable (Some x) t s = (Ok st1, s1) /\
      load_variable (Some x) s1 = (Ok st2, s2) /\
      recorded p (_scope_chain_str (Some x) s) s2 = Some st2 /\
      st_read st2 = yes /\
      forall r,
        finish_entry p (_scope_chain_str (Some x) s, st2) (set_report r s2)
        = (Ok tt, set_report r s2).
Proof.
  intros x t s pos p ps Hx Hloc Hp Hmem Hfind Hread Hundef.
  unfold dict_mem in Hmem.
  destruct (dict_get Z.eqb p (name_map s)) as [d | ] eqn:Hd; [ | discriminate ].
  pose proof (store_variable_fresh x t s pos p ps d Hloc Hp Hd Hfind) as Hstore.
  set (full := _scope_chain_str (Some x) s) in *.
  set (d1 := dict_set String.eqb full (stored_state x t pos) d) in *.
  set (s1 := set_name_map (dict_set Z.eqb p d1 (name_map s)) s) in *.
  assert (Hfind1 : find_variable_scope_in (Some x) s1 = Ok Identifier_False).
  { apply (find_variable_scope_after_store x s p d); assumption. }
  destruct (load_variable_unseen x s1 pos p ps d1) as [r Hload];
    try assumption.
  { unfold s1; simpl. apply (dict_get_set_same Z.eqb Z.eqb_eq). }
  change (_scope_chain_str (Some x) s1) with full in Hload.
  exists (stored_state x t pos), s1, (loaded_state x pos).
  eexists. split; [ exact Hstore | ]. split; [ exact Hload | ].
  assert (Hrec :
             (d' <- dict_item Z.eqb p
                      (dict_set Z.eqb p
                         (dict_set String.eqb full (loaded_state x pos) d1)
                         (name_map s1)) ;;
              dict_item String.eqb full d')%res = Ok (loaded_state x pos)).
  { unfold dict_item.
    rewrite (dict_get_set_same Z.eqb Z.eqb_eq). simpl.
    rewrite (dict_get_set_same String.eqb String.eqb_eq). reflexivity. }
  split; [ | split; [ reflexivity | ] ].
  - unfold recorded. simpl.
    rewrite (dict_get_set_same Z.eqb Z.eqb_eq).
    apply (dict_get_set_same String.eqb String.eqb_eq).
  - intro r'. unfold finish_entry, bind, gets, when, reads, ret. simpl.
    destruct (in_scope full (scope_chain s)); [ | reflexivity ].
    match goal with
    | |- context [rbind ?a ?b] =>
        change (rbind a b)
          with (d' <- dict_item Z.eqb p
                        (dict_set Z.eqb p
                           (dict_set String.eqb full (loaded_state x pos) d1)
                           (name_map s1)) ;;
                dict_item String.eqb full d')%res
    end.
    rewrite Hrec. reflexivity.
Qed.

Lemma store_then_load_is_read_witness :
  "x" <> "" /\
  run locate (at_node line1) = Ok (mkPosition 0 1) /\
  exists st1 s1 st2 s2,
    store_variable (Some "x") (VType NumType) (at_node line1) = (Ok st1, s1) /\
    load_variable (Some "x") s1 = (Ok st2, s2) /\
    recorded 0 (_scope_chain_str (Some "x") (at_node line1)) s2 = Some st2 /\
    st_read st2 = yes /\
    forall r,
      finish_entry 0 (_scope_chain_str (Some "x") (at_node line1), st2)
                   (set_report r s2)
      = (Ok tt, set_report r s2).
Proof.
  split; [ discriminate | ].
  split; [ reflexivity | ].
  apply (store_then_load_is_read "x" (VType NumType) (at_node line1)
           (mkPosition 0 1) 0 []);
    [ discriminate | reflexivity | reflexivity | reflexivity | reflexivity
    | reflexivity | reflexivity ].
Defined.

(** ** The driver on a source that does not parse *)

(** C8, as the code has it.  When [ast.parse] raises, [process_code]
    stores an error report ([success] false, the error, no issues, no
    variables) in [self.report] and raises the same error to its caller. *)
Theorem process_code_parse_failure :
  forall (ast_parse : string -> string -> result node)
         (code filename : string) (s : Tifa) (e : exn),
    ast_parse code filename = Err e ->
    run (process_code ast_parse code filename) s = Err e /\
    report (exec (process_code ast_parse code filename) s) = _error_report e /\
    success (_error_report e) = false /\
    error (_error_report e) = Some e /\
    issues (_error_report e) = [] /\
    variables (_error_report e) = OwnVariables [].
Proof.
  intros ast_parse code filename s e H.
  unfold run, exec, process_code, bind, modify, lift, raise.
  rewrite H. simpl. repeat split.
Qed.

Lemma process_code_parse_failure_witness :
  rejecting_parser "x = (" "__main__" = Err SyntaxError /\
  run (process_code rejecting_parser "x = (" "__main__") blank = Err SyntaxError /\
  report (exec (process_code rejecting_parser "x = (" "__main__") blank)
  = _error_report SyntaxError /\
  success (_error_report SyntaxError) = false /\
  error (_error_report SyntaxError) = Some SyntaxError /\
  issues (_error_report SyntaxError) = [] /\
  variables (_error_report SyntaxError) = OwnVariables [].
Proof.
  split; [ reflexivity | ].
  apply (process_code_parse_failure rejecting_parser "x = (" "__main__" blank
                                    SyntaxError).
  reflexivity.
Defined.

(** C8, at a source that does not parse: with a parser that rejects the
    text, [process_code] returns no report to its caller. *)
Lemma process_code_returns_nothing :
  ~ exists r, run (process_code rejecting_parser "x = (" "__main__") blank = Ok r.
Proof.
  intros [r H]. vm_compute in H. discriminate H.
Qed.

(** The handler treats an error raised during the analysis the same way. *)
Example process_code_analysis_failure :
  let parser (code filename : string) :=
    Ok (ast_BinOp (ast_Name "True" ast_Load (mkPosition 0 1)) Add
                  (ast_Name "True" ast_Load (mkPosition 7 1)) (mkPosition 0 1)) in
  run (process_code parser "True + True" "__main__") blank = Err AttributeError /\
  report (exec (process_code parser "True + True" "__main__") blank)
  = _error_report AttributeError.
Proof. split; vm_compute; reflexivity. Qed.

(** ** Two runs on the same tree *)

(** Induction over trees, with the child lists. *)
Section NodeInduction.
Variable P : node -> Prop.
Hypothesis HLoad : P ast_Load.
Hypothesis HStore : P ast_Store.
Hypothesis HName : forall id ctx pos, P ctx -> P (ast_Name id ctx pos).
Hypothesis HAssign :
  forall targets value pos,
    Forall P targets -> P value -> P (ast_Assign targets value pos).
Hypothesis HAugAssign :
  forall target op value pos,
    P target -> P value -> P (ast_AugAssign target op value pos).
Hypothesis HBinOp :
  forall l op r pos, P l -> P r -> P (ast_BinOp l op r pos).
Hypothesis HUnaryOp :
  forall op operand pos, P operand -> P (ast_UnaryOp op operand pos).
Hypothesis HImport : forall names pos, P (ast_Import names pos).
Hypothesis HImportFrom :
  forall module names pos, P (ast_ImportFrom module names pos).
Hypothesis HTuple :
  forall elts ctx pos, Forall P elts -> P ctx -> P (ast_Tuple elts ctx pos).
Hypothesis HList :
  forall elts ctx pos, Forall P elts -> P ctx -> P (ast_List elts ctx pos).
Hypothesis HSubscript :
  forall value slice ctx pos,
    P value -> P slice -> P ctx -> P (ast_Subscript value slice ctx pos).
Hypothesis HAttribute :
  forall value attr ctx pos,
    P value -> P ctx -> P (ast_Attribute value attr ctx pos).
Hypothesis HCall :
  forall func args keywords pos,
    P func -> Forall P args -> Forall P keywords ->
    P (ast_Call func args keywords pos).
Hypothesis HOther :
  forall children pos, Forall P children -> P (ast_Other children pos).

Fixpoint node_induction (n : node) : P n :=
  let all :=
    fix all (l : list node) : Forall P l :=
      match l with
      | [] => Forall_nil P
      | x :: l' => Forall_cons x (node_induction x) (all l')
      end in
  match n with
  | ast_Load => HLoad
  | ast_Store => HStore
  | ast_Name id ctx pos => HName id ctx pos (node_induction ctx)
  | ast_Assign targets value pos =>
      HAssign targets value pos (all targets) (node_induction value)
  | ast_AugAssign target op value pos =>
      HAugAssign target op value pos (node_induction target)
                 (node_induction value)
  | ast_BinOp l op r pos =>
      HBinOp l op r pos (node_induction l) (node_induction r)
  | ast_UnaryOp op operand pos =>
      HUnaryOp op operand pos (node_induction operand)
  | ast_Import names pos => HImport names pos
  | ast_ImportFrom module names pos => HImportFrom module names pos
  | ast_Tuple elts ctx pos =>
      HTuple elts ctx pos (all elts) (node_induction ctx)
  | ast_List elts ctx pos =>
      HList elts ctx pos (all elts) (node_induction ctx)
  | ast_Subscript value slice ctx pos =>
      HSubscript value slice ctx pos (node_induction value)
                 (node_induction slice) (node_induction ctx)
  | ast_Attribute value attr ctx pos =>
      HAttribute value attr ctx pos (node_induction value)
                 (node_induction ctx)
  | ast_Call func args keywords pos =>
      HCall func args keywords pos (node_induction func) (all args)
            (all keywords)
  | ast_Other children pos => HOther children pos (all children)
  end.
End NodeInduction.

(** *** The monad's operations keep the frame *)

Lemma frame_ret : forall {A} (a : A), frame (ret a).
Proof. intros A a src s; reflexivity. Qed.

Lemma frame_raise : forall {A} (e : exn), frame (@raise A e).
Proof. intros A e src s; reflexivity. Qed.

Lemma frame_lift : forall {A} (r : result A), frame (lift r).
Proof. intros A r src s; reflexivity. Qed.

Lemma frame_gets :
  forall {A} (f : Tifa -> A),
    (forall src s, f (set_source src s) = f s) -> frame (gets f).
Proof. intros A f H src s. unfold gets. rewrite H. reflexivity. Qed.

Lemma frame_reads :
  forall {A} (f : Tifa -> result A),
    (forall src s, f (set_source src s) = f s) -> frame (reads f).
Proof. intros A f H src s. unfold reads. rewrite H. reflexivity. Qed.

Lemma frame_modify :
  forall f : Tifa -> Tifa,
    (forall src s, f (set_source src s) = set_source src (f s)) ->
    frame (modify f).
Proof. intros f H src s. unfold modify. rewrite H. reflexivity. Qed.

Lemma frame_bind :
  forall {A B} (m : M A) (f : A -> M B),
    frame m -> (forall a, frame (f a)) -> frame (bind m f).
Proof.
  intros A B m f Hm Hf src s. unfold bind. rewrite Hm.
  destruct (m s) as [[a | e] s']; simpl; [ apply Hf | reflexivity ].
Qed.

Lemma frame_when :
  forall (c : bool) (m : M unit), frame m -> frame (when c m).
Proof. intros [ | ] m H; simpl; [ exact H | apply frame_ret ]. Qed.

Lemma frame_for_each :
  forall {A} (f : A -> M unit) (l : list A),
    Forall (fun x => frame (f x)) l -> frame (for_each f l).
Proof.
  intros A f l H. induction H as [ | x l Hx _ IH ]; simpl.
  - apply frame_ret.
  - apply frame_bind; [ exact Hx | intros _; exact IH ].
Qed.

Lemma frame_for_all :
  forall {A} (f : A -> M unit) (l : list A),
    (forall x, frame (f x)) -> frame (for_each f l).
Proof.
  intros A f l H. apply frame_for_each. apply Forall_forall. intros x _. apply H.
Qed.

Create HintDb frames.

(** One step of a proof that a method keeps the frame. *)
Ltac frame_step :=
  match goal with
  | |- frame (ret _) => apply frame_ret
  | |- frame (raise _) => apply frame_raise
  | |- frame (lift _) => apply frame_lift
  | |- frame (bind _ _) => apply frame_bind; [ | intro ]
  | |- frame (gets _) => apply frame_gets; intros; reflexivity
  | |- frame (reads _) => apply frame_reads; intros; reflexivity
  | |- frame (modify _) => apply frame_modify; intros; reflexivity
  | |- frame (when _ _) => apply frame_when
  | |- frame (for_each _ _) => apply frame_for_all; intro
  | |- frame (if ?b then _ else _) => destruct b
  | |- frame (match ?x with _ => _ end) => destruct x
  | |- frame _ => solve [ auto with frames ]
  end.

Ltac frames := repeat frame_step.

(** *** The methods keep the frame *)

Lemma frame_locate : frame locate.
Proof. unfold locate; frames. Qed.
#[local] Hint Resolve frame_locate : frames.

Lemma frame_report_issue : forall issue data, frame (report_issue issue data).
Proof. intros; unfold report_issue; frames. Qed.
#[local] Hint Resolve frame_report_issue : frames.

Lemma frame_find_variable_scope : forall name, frame (find_variable_scope name).
Proof. intros; unfold find_variable_scope; frames. Qed.
#[local] Hint Resolve frame_find_variable_scope : frames.

Lemma frame_find_variable_out_of_scope :
  forall name, frame (find_variable_out_of_scope name).
Proof. intros; unfold find_variable_out_of_scope; frames. Qed.
#[local] Hint Resolve frame_find_variable_out_of_scope : frames.

Lemma frame_first_path : frame first_path.
Proof. unfold first_path; frames. Qed.
#[local] Hint Resolve frame_first_path : frames.

Lemma frame_name_map_setitem :
  forall path full_name st, frame (name_map_setitem path full_name st).
Proof. intros; unfold name_map_setitem; frames. Qed.
#[local] Hint Resolve frame_name_map_setitem : frames.

Lemma frame_trace_state : forall state method, frame (trace_state state method).
Proof. intros; unfold trace_state; frames. Qed.
#[local] Hint Resolve frame_trace_state : frames.

Lemma frame_state_attr :
  forall {A} state (f : State -> A), frame (state_attr state f).
Proof. intros; unfold state_attr; frames. Qed.
#[local] Hint Resolve @frame_state_attr : frames.

Lemma frame_store_variable : forall name type, frame (store_variable name type).
Proof. intros; unfold store_variable; frames. Qed.
#[local] Hint Resolve frame_store_variable : frames.

Lemma frame_load_variable : forall name, frame (load_variable name).
Proof. intros; unfold load_variable; frames. Qed.
#[local] Hint Resolve frame_load_variable : frames.

Lemma frame_load_module : forall chain, frame (load_module chain).
Proof.
  intro chain. unfold load_module.
  destruct (dict_get String.eqb (hd "" (split dot chain)) MODULES) as [top | ];
    [ | frames ].
  generalize top. generalize (split dot chain) as names.
  induction names as [ | module names IH ]; intro base_module; simpl.
  - frames.
  - frames; apply IH.
Qed.
#[local] Hint Resolve frame_load_module : frames.

Lemma frame_finish_entry : forall path_id entry, frame (finish_entry path_id entry).
Proof. intros; unfold finish_entry; frames. Qed.
#[local] Hint Resolve frame_finish_entry : frames.

Lemma frame_finish_scope : frame _finish_scope.
Proof. unfold _finish_scope; frames. Qed.
#[local] Hint Resolve frame_finish_scope : frames.

Lemma frame_collect : frame _collect_top_level_varaibles.
Proof. unfold _collect_top_level_varaibles; frames. Qed.
#[local] Hint Resolve frame_collect : frames.

Lemma frame_visit_enter : forall n, frame (visit_enter n).
Proof. intros; unfold visit_enter; frames. Qed.
#[local] Hint Resolve frame_visit_enter : frames.

Lemma frame_visit_leave : forall result, frame (visit_leave result).
Proof. intros; unfold visit_leave; frames. Qed.
#[local] Hint Resolve frame_visit_leave : frames.

Lemma frame_visit_Name : forall name ctx, frame (visit_Name name ctx).
Proof. intros; unfold visit_Name; frames. Qed.
#[local] Hint Resolve frame_visit_Name : frames.

Lemma frame_binop_result : forall op left right, frame (binop_result op left right).
Proof. intros; unfold binop_result; frames. Qed.
#[local] Hint Resolve frame_binop_result : frames.

Lemma frame_augassign_result :
  forall name op left right, frame (augassign_result name op left right).
Proof. intros; unfold augassign_result; frames. Qed.
#[local] Hint Resolve frame_augassign_result : frames.

Lemma frame_unaryop_result : forall op operand, frame (unaryop_result op operand).
Proof. intros; unfold unaryop_result; frames. Qed.
#[local] Hint Resolve frame_unaryop_result : frames.

Lemma frame_visit_Import : forall names, frame (visit_Import names).
Proof. intros; unfold visit_Import; frames. Qed.
#[local] Hint Resolve frame_visit_Import : frames.

Lemma frame_visit_ImportFrom :
  forall module names, frame (visit_ImportFrom module names).
Proof. intros; unfold visit_ImportFrom; frames. Qed.
#[local] Hint Resolve frame_visit_ImportFrom : frames.

Lemma frame_action : forall target type, frame (action target type).
Proof.
  intro target.
  induction target using node_induction; intro type; simpl; try solve [ frames ].
  - generalize 0 as i. induction H as [ | elt elts Helt _ IH ]; intro i; frames.
  - generalize 0 as i. induction H as [ | elt elts Helt _ IH ]; intro i; frames.
Qed.
#[local] Hint Resolve frame_action : frames.

Lemma frame_visit_each :
  forall l, Forall (fun n => frame (visit n)) l ->
            frame (for_each (fun t => visit t ;; ret tt) l).
Proof.
  intros l H. apply frame_for_each.
  induction H as [ | x l Hx _ IH ]; constructor; [ frames | exact IH ].
Qed.

Lemma frame_visit : forall n, frame (visit n).
Proof.
  intro n.
  induction n using node_induction; simpl;
    repeat first [ assumption | apply frame_visit_each; assumption | frame_step ].
Qed.
#[local] Hint Resolve frame_visit : frames.

Lemma frame_analysis : forall ast_tree, frame (analysis ast_tree).
Proof. intro; unfold analysis; frames. Qed.

(** [process_ast] is the analysis run on the reset state, whatever the
    analyzer held before; only the source text stays. *)
Lemma process_ast_from_reset :
  forall ast_tree s,
    process_ast ast_tree s
    = (run (analysis ast_tree) reset_state,
       set_source (source s) (exec (analysis ast_tree) reset_state)).
Proof.
  intros ast_tree s.
  change (process_ast ast_tree s)
    with (analysis ast_tree (set_source (source s) reset_state)).
  apply frame_analysis.
Qed.

Lemma process_ast_forgets :
  forall ast_tree s1 s2,
    run (process_ast ast_tree) s1 = run (process_ast ast_tree) s2 /\
    report (exec (process_ast ast_tree) s1) = report (exec (process_ast ast_tree) s2) /\
    report_variables (exec (process_ast ast_tree) s1)
    = report_variables (exec (process_ast ast_tree) s2).
Proof.
  intros ast_tree s1 s2. unfold run, exec.
  rewrite (process_ast_from_reset ast_tree s1),
          (process_ast_from_reset ast_tree s2).
  repeat split.
Qed.

(** C9.  Running [process_ast] a second time on the same tree, on the
    analyzer as the first run left it, gives the same outcome: the same
    returned report (success flag, issue records under each kind in the same
    order, variables and top-level variables) or the same error, and the
    same [self.report], with the same variables in the name map object it
    holds. *)
Theorem process_ast_twice :
  forall (ast_tree : node) (s : Tifa),
    let after_first := exec (process_ast ast_tree) s in
    run (process_ast ast_tree) after_first = run (process_ast ast_tree) s /\
    report (exec (process_ast ast_tree) after_first) = report after_first /\
    report_variables (exec (process_ast ast_tree) after_first)
    = report_variables after_first.
Proof.
  intros ast_tree s after_first.
  apply process_ast_forgets.
Qed.

(** ** The module walk in general *)

Lemma report_issue_appends :
  forall kind x s pos l,
    run locate s = Ok pos ->
    dict_get String.eqb kind (issues (report s)) = Some l ->
    run (report_issue kind [("name", d_name x)]) s = Ok tt /\
    run locate (exec (report_issue kind [("name", d_name x)]) s) = Ok pos /\
    issues_of kind (exec (report_issue kind [("name", d_name x)]) s)
    = (l ++ [[("name", d_name x); ("position", d_position (Some pos))]])%list /\
    dict_get String.eqb kind
             (issues (report (exec (report_issue kind [("name", d_name x)]) s)))
    = Some (l ++ [[("name", d_name x); ("position", d_position (Some pos))]])%list.
Proof.
  intros kind x s pos l Hloc Hk.
  pose proof Hloc as Hloc'.
  unfold run, locate, reads in Hloc; simpl in Hloc.
  unfold run, exec, issues_of, report_issue, bind, reads, locate, ret, modify,
    dict_item.
  simpl. rewrite Hloc, Hk. simpl.
  rewrite (dict_get_set_same String.eqb String.eqb_eq).
  repeat split. unfold locate, reads. simpl. rewrite Hloc. reflexivity.
Qed.

(** From any module, the walk returns a module and only ever adds records
    under 'Submodule not found'. *)
Lemma walk_modules_returns :
  forall chain names base s pos l,
    run locate s = Ok pos ->
    dict_get String.eqb "Submodule not found" (issues (report s)) = Some l ->
    exists m l',
      run (walk_modules chain base names) s = Ok m /\
      submodule_issues (exec (walk_modules chain base names) s) = (l ++ l')%list.
Proof.
  intros chain names. induction names as [ | module names IH ];
    intros base s pos l Hloc Hk.
  - exists base, []. split; [ reflexivity | ].
    unfold submodule_issues, issues_of, exec. simpl. rewrite Hk.
    symmetry; apply app_nil_r.
  - assert (Hreport :
              exists m l',
                run (report_issue "Submodule not found"
                                  [("name", d_name (Some chain))] ;;
                     walk_modules chain base names) s = Ok m /\
                submodule_issues
                  (exec (report_issue "Submodule not found"
                                      [("name", d_name (Some chain))] ;;
                         walk_modules chain base names) s) = (l ++ l')%list).
    { destruct (report_issue_appends "Submodule not found" (Some chain) s pos l
                                     Hloc Hk) as (Hrun & Hloc1 & _ & Hk1).
      unfold run, exec in *.
      destruct (report_issue "Submodule not found"
                             [("name", d_name (Some chain))] s)
        as [r s1] eqn:E.
      simpl in Hrun, Hloc1, Hk1. subst r.
      destruct (IH base s1 pos _ Hloc1 Hk1) as (m & l' & Hm & Hl).
      exists m. eexists.
      unfold bind. rewrite E. split; [ exact Hm | ].
      unfold run, exec in Hl. rewrite Hl. rewrite <- app_assoc. reflexivity. }
    simpl. destruct base; try exact Hreport.
    destruct (dict_get String.eqb module submodules) as [sub | ];
      [ | exact Hreport ].
    apply (IH sub s pos l Hloc Hk).
Qed.

(** No module of the registry has a submodule of its own name. *)
Lemma registry_not_its_own_submodule :
  forall name top,
    dict_get String.eqb name MODULES = Some top ->
    match top with
    | ModuleType _ submodules _ => dict_get String.eqb name submodules = None
    | _ => True
    end.
Proof.
  intros name top H.
  assert (Hall :
            forallb (fun kv : string * Ty =>
                       match snd kv with
                       | ModuleType _ submodules _ =>
                           negb (dict_mem String.eqb (fst kv) submodules)
                       | _ => true
                       end) MODULES = true) by (vm_compute; reflexivity).
  rewrite forallb_forall in Hall.
  assert (Hin : In (name, top) MODULES).
  { revert H. generalize MODULES as d.
    induction d as [ | [k v] d IH ]; simpl; intro H; [ discriminate | ].
    destruct (String.eqb name k) eqn:E.
    - apply String.eqb_eq in E. inversion H; subst. left; reflexivity.
    - right. apply IH. exact H. }
  specialize (Hall _ Hin). simpl in Hall.
  destruct top; try exact I.
  unfold dict_mem in Hall.
  destruct (dict_get String.eqb name submodules); [ discriminate | reflexivity ].
Qed.

Lemma dict_get_In :
  forall {V} (k : string) (d : sdict V) (v : V),
    dict_get String.eqb k d = Some v -> In (k, v) d.
Proof.
  intros V k d v. induction d as [ | [k0 v0] d IH ]; simpl; intro H;
    [ discriminate | ].
  destruct (String.eqb k k0) eqn:E.
  - apply String.eqb_eq in E. inversion H; subst. left; reflexivity.
  - right. apply IH. exact H.
Qed.

Lemma module_tree_submodule :
  forall name submodules fields k sub,
    module_tree (ModuleType name submodules fields) = true ->
    dict_get String.eqb k submodules = Some sub ->
    module_tree sub = true.
Proof.
  intros name submodules fields k sub H Hget.
  apply dict_get_In in Hget. simpl in H.
  induction submodules as [ | entry l IH ]; [ contradiction | ].
  apply andb_true_iff in H. destruct H as [H1 H2].
  destruct Hget as [He | Hin].
  - subst entry. exact H1.
  - apply IH; assumption.
Qed.

Lemma module_tree_class :
  forall t, module_tree t = true -> class_of t = cModuleType.
Proof. intros t H. destruct t; try discriminate. reflexivity. Qed.

(** The modules of the registry are modules all the way down. *)
Lemma registry_module_tree :
  forall name top,
    dict_get String.eqb name MODULES = Some top -> module_tree top = true.
Proof.
  intros name top H.
  assert (Hall : forallb (fun kv : string * Ty => module_tree (snd kv)) MODULES
                 = true) by (vm_compute; reflexivity).
  rewrite forallb_forall in Hall.
  exact (Hall _ (dict_get_In _ _ _ H)).
Qed.

(** The walk goes from module to module. *)
Lemma walk_modules_module :
  forall chain names base s m,
    module_tree base = true ->
    run (walk_modules chain base names) s = Ok m ->
    module_tree m = true.
Proof.
  intros chain names. induction names as [ | module names IH ];
    intros base s m Hbase Hrun.
  - unfold run in Hrun. simpl in Hrun. inversion Hrun; subst. exact Hbase.
  - simpl in Hrun. destruct base; try discriminate.
    destruct (dict_get String.eqb module submodules) as [sub | ] eqn:Hsub.
    + apply (IH sub s m); [ | exact Hrun ].
      exact (module_tree_submodule _ _ _ _ _ Hbase Hsub).
    + unfold run, bind in Hrun.
      destruct (report_issue "Submodule not found"
                             [("name", d_name (Some chain))] s)
        as [[u | e] s1]; [ | discriminate ].
      exact (IH _ s1 m Hbase Hrun).
Qed.

(** Whatever dotted path starts with a registered module, [load_module]
    returns a module type, an instance of [ModuleType], and files at least
    one 'Submodule not found'. *)
Lemma load_module_registered_reports :
  forall chain s pos l top,
    run locate s = Ok pos ->
    dict_get String.eqb "Submodule not found" (issues (report s)) = Some l ->
    dict_get String.eqb (hd "" (split dot chain)) MODULES = Some top ->
    exists m l',
      run (load_module chain) s = Ok m /\
      class_of m = cModuleType /\
      submodule_issues (exec (load_module chain) s)
      = (l ++ [("name", d_name (Some chain));
               ("position", d_position (Some pos))] :: l')%list.
Proof.
  intros chain s pos l top Hloc Hk Htop.
  assert (Hclass : forall m, run (load_module chain) s = Ok m ->
                             class_of m = cModuleType).
  { intros m Hm. unfold load_module in Hm. rewrite Htop in Hm.
    apply module_tree_class.
    apply (walk_modules_module chain (split dot chain) top s m);
      [ exact (registry_module_tree _ _ Htop) | exact Hm ]. }
  cut (exists m l',
          run (load_module chain) s = Ok m /\
          submodule_issues (exec (load_module chain) s)
          = (l ++ [("name", d_name (Some chain));
                   ("position", d_position (Some pos))] :: l')%list).
  { intros (m & l' & Hm & Hl). exists m, l'.
    split; [ exact Hm | ]. split; [ exact (Hclass m Hm) | exact Hl ]. }
  clear Hclass.
  unfold load_module. rewrite Htop.
  pose proof (registry_not_its_own_submodule _ _ Htop) as Hself.
  destruct (split dot chain) as [ | first rest ] eqn:Hsplit.
  - destruct chain; simpl in Hsplit; [ discriminate | ].
    destruct (Ascii.eqb a dot); [ discriminate | ].
    destruct (split dot chain); discriminate.
  - simpl in Hself, Htop |- *.
    destruct (report_issue_appends "Submodule not found" (Some chain) s pos l
                                   Hloc Hk) as (Hrun & Hloc1 & _ & Hk1).
    assert (Hstep :
              exists m l',
                run (report_issue "Submodule not found"
                                  [("name", d_name (Some chain))] ;;
                     walk_modules chain top rest) s = Ok m /\
                submodule_issues
                  (exec (report_issue "Submodule not found"
                                      [("name", d_name (Some chain))] ;;
                         walk_modules chain top rest) s)
                = (l ++ [("name", d_name (Some chain));
                         ("position", d_position (Some pos))] :: l')%list).
    { unfold run, exec in *.
      destruct (report_issue "Submodule not found"
                             [("name", d_name (Some chain))] s)
        as [r s1] eqn:E.
      simpl in Hrun, Hloc1, Hk1. subst r.
      destruct (walk_modules_returns chain rest top s1 pos _ Hloc1 Hk1)
        as (m & l' & Hm & Hl).
      exists m, l'. unfold bind. rewrite E. split; [ exact Hm | ].
      unfold run, exec in Hl. rewrite Hl. rewrite <- app_assoc. reflexivity. }
    destruct top; try exact Hstep.
    rewrite Hself. exact Hstep.
Qed.

(** A dotted path whose first name is not registered gives the empty
    module and one 'Module not found', and nothing else. *)
Lemma load_module_unregistered :
  forall chain s pos l,
    run locate s = Ok pos ->
    dict_get String.eqb "Module not found" (issues (report s)) = Some l ->
    dict_get String.eqb (hd "" (split dot chain)) MODULES = None ->
    run (load_module chain) s = Ok ModuleType_default /\
    issues_of "Module not found" (exec (load_module chain) s)
    = (l ++ [[("name", d_name (Some chain));
              ("position", d_position (Some pos))]])%list.
Proof.
  intros chain s pos l Hloc Hk Htop.
  unfold load_module. rewrite Htop.
  destruct (report_issue_appends "Module not found" (Some chain) s pos l
                                 Hloc Hk) as (Hrun & _ & Hl & _).
  unfold run, exec in *. unfold bind.
  destruct (report_issue "Module not found" [("name", d_name (Some chain))] s)
    as [r s1].
  simpl in Hrun, Hl. subst r. simpl. split; [ reflexivity | exact Hl ].
Qed.

(** ** Two writes in general *)

(** A second write with no read between takes the create branch again:
    its State is the State of a first write, with [over = 'no'] and no
    [over_position]. *)
Lemma second_store_is_fresh :
  forall x t1 t2 s pos p ps,
    x <> "" ->
    run locate s = Ok pos ->
    path_chain s = p :: ps ->
    dict_mem Z.eqb p (name_map s) = true ->
    find_variable_scope_in (Some x) s = Ok Identifier_False ->
    exists s1 s2,
      store_variable (Some x) t1 s = (Ok (stored_state x t1 pos), s1) /\
      store_variable (Some x) t2 s1 = (Ok (stored_state x t2 pos), s2) /\
      recorded p (_scope_chain_str (Some x) s) s2 = Some (stored_state x t2 pos).
Proof.
  intros x t1 t2 s pos p ps Hx Hloc Hp Hmem Hfind.
  unfold dict_mem in Hmem.
  destruct (dict_get Z.eqb p (name_map s)) as [d | ] eqn:Hd; [ | discriminate ].
  pose proof (store_variable_fresh x t1 s pos p ps d Hloc Hp Hd Hfind) as H1.
  set (full := _scope_chain_str (Some x) s) in *.
  set (d1 := dict_set String.eqb full (stored_state x t1 pos) d) in *.
  set (s1 := set_name_map (dict_set Z.eqb p d1 (name_map s)) s) in *.
  assert (Hd1 : dict_get Z.eqb p (name_map s1) = Some d1)
    by (unfold s1; simpl; apply (dict_get_set_same Z.eqb Z.eqb_eq)).
  assert (Hfind1 : find_variable_scope_in (Some x) s1 = Ok Identifier_False)
    by (apply (find_variable_scope_after_store x s p d); assumption).
  pose proof (store_variable_fresh x t2 s1 pos p ps d1 Hloc Hp Hd1 Hfind1) as H2.
  exists s1. eexists. split; [ exact H1 | ]. split; [ exact H2 | ].
  unfold recorded. simpl.
  rewrite (dict_get_set_same Z.eqb Z.eqb_eq).
  apply (dict_get_set_same String.eqb String.eqb_eq).
Qed.

(* ===================================================================== *)
(** * Further properties of the type lattice *)
(* ===================================================================== *)

(** ** [_dict_extends] *)

Lemma dict_get_absent :
  forall {V} (k : string) (d : sdict V),
    ~ In k (map fst d) -> dict_get String.eqb k d = None.
Proof.
  intros V k d. induction d as [ | [k0 v0] d IH ]; simpl; intro H.
  - reflexivity.
  - destruct (String.eqb k k0) eqn:E.
    + apply String.eqb_eq in E. subst. exfalso. apply H. left; reflexivity.
    + apply IH. intro Hin. apply H. right; exact Hin.
Qed.

Lemma dict_get_fold_set :
  forall {V} (k : string) (l d : sdict V),
    NoDup (map fst l) ->
    dict_get String.eqb k
      (fold_left (fun d kv => dict_set String.eqb (fst kv) (snd kv) d) l d)
    = match dict_get String.eqb k l with
      | Some v => Some v
      | None => dict_get String.eqb k d
      end.
Proof.
  intros V k l. induction l as [ | [k0 v0] l IH ]; intros d Hnd; simpl.
  - reflexivity.
  - inversion Hnd as [ | ? ? Hnotin Hnd' ]; subst.
    rewrite (IH _ Hnd'). simpl in Hnotin.
    destruct (String.eqb k k0) eqn:E.
    + apply String.eqb_eq in E. subst k0.
      rewrite (dict_get_absent k l Hnotin).
      apply (dict_get_set_same String.eqb String.eqb_eq).
    + apply String.eqb_neq in E.
      rewrite (dict_get_set_other String.eqb String.eqb_eq) by exact E.
      reflexivity.
Qed.

(** [_dict_extends(d1, d2)] holds, for every key, the value of [d2] when
    [d2] has the key and the value of [d1] otherwise. *)
Theorem dict_extends_lookup :
  forall {V} (d1 d2 : sdict V) (k : string),
    NoDup (map fst d1) ->
    NoDup (map fst d2) ->
    dict_get String.eqb k (_dict_extends d1 d2)
    = match dict_get String.eqb k d2 with
      | Some v => Some v
      | None => dict_get String.eqb k d1
      end.
Proof.
  intros V d1 d2 k H1 H2. unfold _dict_extends.
  rewrite (dict_get_fold_set k d2 _ H2).
  rewrite (dict_get_fold_set k d1 [] H1). simpl.
  destruct (dict_get String.eqb k d1); reflexivity.
Qed.

Lemma dict_extends_lookup_witness :
  dict_get String.eqb "read"
    (_dict_extends [("read", NumType); ("close", NoneType)] [("read", StrType)])
  = Some StrType /\
  dict_get String.eqb "close"
    (_dict_extends [("read", NumType); ("close", NoneType)] [("read", StrType)])
  = Some NoneType.
Proof.
  assert (H1 : NoDup (map fst [("read", NumType); ("close", NoneType)])).
  { repeat constructor; simpl; intuition discriminate. }
  assert (H2 : NoDup (map fst [("read", StrType)])).
  { repeat constructor; simpl; intuition. }
  split.
  - exact (dict_extends_lookup _ _ "read" H1 H2).
  - exact (dict_extends_lookup _ _ "close" H1 H2).
Defined.

(** ** Induction over types *)

Section TyInduction.
Variable P : Ty -> Prop.
Hypothesis HUnknown : P UnknownType.
Hypothesis HRecursed : P RecursedType.
Hypothesis HFunction : forall d n, P (FunctionType d n).
Hypothesis HNum : P NumType.
Hypothesis HNone : P NoneType.
Hypothesis HBool : P BoolType.
Hypothesis HTuple : forall l, Forall P l -> P (TupleType l).
Hypothesis HList : forall s e, P s -> P (ListType s e).
Hypothesis HStr : P StrType.
Hypothesis HFile : P FileType.
Hypothesis HDict :
  forall e ls k v, opt_all P k -> oom_all P v -> P (DictType e ls k v).
Hypothesis HModule : forall n subs fs, P (ModuleType n subs fs).
Hypothesis HSet : forall s e, P s -> P (SetType s e).
Hypothesis HGenerator : forall s e, P s -> P (GeneratorType s e).
Hypothesis HTime : P TimeType.
Hypothesis HDay : P DayType.

Fixpoint Ty_induction (t : Ty) : P t :=
  let all :=
    fix all (l : list Ty) : Forall P l :=
      match l with
      | [] => Forall_nil P
      | x :: l' => Forall_cons x (Ty_induction x) (all l')
      end in
  match t with
  | UnknownType => HUnknown
  | RecursedType => HRecursed
  | FunctionType d n => HFunction d n
  | NumType => HNum
  | NoneType => HNone
  | BoolType => HBool
  | TupleType l => HTuple l (all l)
  | ListType s e => HList s e (Ty_induction s)
  | StrType => HStr
  | FileType => HFile
  | DictType e ls k v =>
      HDict e ls k v
            (match k return opt_all P k with
             | Some t' => Ty_induction t'
             | None => I
             end)
            (match v return oom_all P v with
             | NoValue => I
             | One t' => Ty_induction t'
             | Many l => all l
             end)
  | ModuleType n subs fs => HModule n subs fs
  | SetType s e => HSet s e (Ty_induction s)
  | GeneratorType s e => HGenerator s e (Ty_induction s)
  | TimeType => HTime
  | DayType => HDay
  end.
End TyInduction.

(** ** [clone] *)

(** Cloning a clone changes nothing more, and a clone has the class of the
    original, but for sets and generators, whose clone is a list. *)
Theorem clone_idempotent :
  forall t : Ty,
    clone (clone t) = clone t /\
    class_of (clone t)
    = match class_of t with
      | cSetType | cGeneratorType => cListType
      | c => c
      end.
Proof.
  intro t. split; [ | destruct t; reflexivity ].
  induction t using Ty_induction; simpl; try reflexivity;
    try (rewrite IHt; reflexivity).
  f_equal. induction H as [ | x l Hx _ IH ]; simpl.
  - reflexivity.
  - rewrite Hx, IH. reflexivity.
Qed.

(** ** [are_types_equal] beyond [Unknown] and [None] *)

Lemma are_types_equal_inst_None :
  forall t, are_types_equal_inst t VNone = Ok false.
Proof. destruct t; reflexivity. Qed.

Lemma are_types_equal_inst_VList :
  forall t l, are_types_equal_inst t (VList l) = Ok false.
Proof. destruct t; reflexivity. Qed.

Lemma are_types_equal_other_VList :
  forall l t, are_types_equal_other (VList l) (VType t) = false.
Proof. destruct t; reflexivity. Qed.

Lemma literal_pairs_equal :
  forall ls lr,
    forallb (fun p => are_types_equal_other (VLit (fst p)) (VLit (snd p)))
            (combine ls lr) = true.
Proof.
  induction ls as [ | [a] ls IH ]; intros [ | [b] lr ]; simpl; try reflexivity.
  apply IH.
Qed.

Lemma dict_literals_unfold :
  forall ll kl vl lr kr vr,
    are_types_equal_inst (DictType false (Some ll) kl vl)
                         (VType (DictType false (Some lr) kr vr))
    = if negb (Nat.eqb (length ll) (length lr)) then Ok false
      else if negb (forallb (fun p => are_types_equal_other
                                        (VLit (fst p)) (VLit (snd p)))
                            (combine ll lr))
           then Ok false
           else match vl, vr with
                | Many a, Many b => values_equal a b
                | _, _ => Err TypeError
                end.
Proof. reflexivity. Qed.

Lemma dict_dynamic_unfold :
  forall kl vl kr vr,
    are_types_equal_inst (DictType false None kl vl)
                         (VType (DictType false None kr vr))
    = (keys_equal <-
         match kl with
         | Some k => are_types_equal_inst k (opt_val kr)
         | None => Ok false
         end ;;
       values_equal <-
         match vl with
         | One v => are_types_equal_inst v (oom_val vr)
         | NoValue => Ok false
         | Many l => Ok (are_types_equal_other (VList l) (oom_val vr))
         end ;;
       Ok (keys_equal && values_equal))%res.
Proof. reflexivity. Qed.

Lemma values_equal_sym :
  forall ls rs,
    Forall (fun l => forall r, are_types_equal_inst l (VType r)
                               = are_types_equal_inst r (VType l)) ls ->
    values_equal ls rs = values_equal rs ls.
Proof.
  intros ls rs H. revert rs.
  induction H as [ | l ls Hl _ IH ]; intros [ | r rs ]; simpl; try reflexivity.
  rewrite Hl, IH. reflexivity.
Qed.

Lemma are_types_equal_inst_sym :
  forall l r,
    are_types_equal_inst l (VType r) = are_types_equal_inst r (VType l).
Proof.
  induction l using Ty_induction; intro r; destruct r; try reflexivity.
  - destruct e, empty; try reflexivity. cbn. apply IHl.
  - destruct e, empty; try reflexivity.
    destruct ls as [ls | ], literals as [lr | ]; try reflexivity.
    + rewrite !dict_literals_unfold.
      rewrite (Nat.eqb_sym (length lr) (length ls)).
      rewrite !literal_pairs_equal.
      destruct v as [ | v | vs ], values as [ | v' | vs' ]; try reflexivity.
      rewrite (values_equal_sym vs vs' H0). reflexivity.
    + rewrite !dict_dynamic_unfold.
      assert (Hk : match k with
                   | Some k0 => are_types_equal_inst k0 (opt_val keys)
                   | None => Ok false
                   end
                   = match keys with
                     | Some k0 => are_types_equal_inst k0 (opt_val k)
                     | None => Ok false
                     end).
      { destruct k as [k | ], keys as [k' | ]; simpl;
          rewrite ?are_types_equal_inst_None; try reflexivity.
        apply H. }
      assert (Hv : match v with
                   | One v0 => are_types_equal_inst v0 (oom_val values)
                   | NoValue => Ok false
                   | Many l => Ok (are_types_equal_other (VList l) (oom_val values))
                   end
                   = match values with
                     | One v0 => are_types_equal_inst v0 (oom_val v)
                     | NoValue => Ok false
                     | Many l => Ok (are_types_equal_other (VList l) (oom_val v))
                     end).
      { destruct v as [ | v | vs ], values as [ | v' | vs' ]; simpl;
          rewrite ?are_types_equal_inst_None, ?are_types_equal_inst_VList,
            ?are_types_equal_other_VList; try reflexivity.
        apply H0. }
      rewrite Hk, Hv.
      destruct (match keys with
                | Some k0 => are_types_equal_inst k0 (opt_val k)
                | None => Ok false
                end) as [a | ]; simpl; [ | reflexivity ].
      destruct (match values with
                | One v0 => are_types_equal_inst v0 (oom_val v)
                | NoValue => Ok false
                | Many l => Ok (are_types_equal_other (VList l) (oom_val v))
                end); reflexivity.
  - destruct e, empty; try reflexivity. cbn. apply IHl.
  - destruct e, empty; try reflexivity. cbn. apply IHl.
Qed.

(** [are_types_equal] gives the same answer, or raises the same error,
    with its two arguments exchanged. *)
Theorem are_types_equal_sym :
  forall a b : pyval, are_types_equal a b = are_types_equal b a.
Proof.
  intros a b.
  destruct a as [ | l | c | l | [x] ], b as [ | r | c' | r | [y] ];
    try reflexivity;
    try (apply are_types_equal_inst_sym);
    try (destruct l; reflexivity);
    try (destruct r; reflexivity).
Qed.

(** Two values of different classes are never equal: the answer is
    [False], not an error. *)
Theorem are_types_equal_classes_differ :
  forall a b : pyval,
    type_of a <> type_of b -> are_types_equal a b = Ok false.
Proof.
  intros a b H.
  assert (Hc : pyclass_eqb (type_of a) (type_of b) = false).
  { unfold pyclass_eqb. destruct (pyclass_eq_dec (type_of a) (type_of b));
      [ contradiction | reflexivity ]. }
  destruct a as [ | l | c | l | [x] ]; simpl in *.
  - reflexivity.
  - destruct l; simpl in *;
      destruct b as [ | r | c' | r | [y] ]; try reflexivity;
      simpl in Hc |- *; try rewrite Hc; try reflexivity;
      destruct r; simpl in *; try reflexivity; discriminate.
  - unfold are_types_equal_other. simpl.
    destruct b as [ | r | c' | r | [y] ]; simpl in *; try reflexivity;
      try discriminate.
    destruct r; reflexivity.
  - unfold are_types_equal_other. simpl.
    destruct b as [ | r | c' | r | [y] ]; simpl in *; try reflexivity;
      try discriminate.
    destruct r; reflexivity.
  - unfold are_types_equal_other. simpl.
    destruct b as [ | r | c' | r | [y] ]; simpl in *; try reflexivity;
      try discriminate.
    destruct r; reflexivity.
Qed.

Lemma are_types_equal_classes_differ_witness :
  type_of (VType (SetType NumType false)) <> type_of (VType (ListType NumType false)) /\
  are_types_equal (VType (SetType NumType false)) (VType (ListType NumType false))
  = Ok false.
Proof.
  split; [ discriminate | ].
  apply (are_types_equal_classes_differ
           (VType (SetType NumType false)) (VType (ListType NumType false))).
  discriminate.
Defined.

(** ** [index] *)

Lemma py_nth_in_range :
  forall {A} (l : list A) (d : A) (j : Z),
    0 <= j < Z.of_nat (length l) ->
    nth_error l (Z.to_nat j) = Some (nth (Z.to_nat j) l d).
Proof.
  intros A l d j Hj. apply nth_error_nth'. lia.
Qed.

(** Indexing a tuple type with a literal selects the clone of that slot,
    counting from the end for a negative literal, and raises [IndexError]
    outside [-len, len); indexing a list, set or generator type gives the
    clone of its subtype whatever the literal. *)
Theorem index_bounds :
  forall (l : list Ty) (i : Z),
    let n := Z.of_nat (length l) in
    (0 <= i < n ->
     index (VType (TupleType l)) (LiteralNum i)
     = Ok (VType (clone (nth (Z.to_nat i) l UnknownType)))) /\
    (- n <= i < 0 ->
     index (VType (TupleType l)) (LiteralNum i)
     = Ok (VType (clone (nth (Z.to_nat (i + n)) l UnknownType)))) /\
    (i < - n \/ n <= i ->
     index (VType (TupleType l)) (LiteralNum i) = Err IndexError) /\
    (forall c s e,
        index (VType (sequence_type c s e)) (LiteralNum i) = Ok (VType (clone s))).
Proof.
  intros l i n. unfold index, py_nth. fold n.
  repeat split.
  - intro H. destruct (Z.ltb_spec i 0); [ lia | ].
    destruct (Z.ltb_spec i 0); [ lia | ].
    destruct (Z.leb_spec n i); [ lia | ]. simpl.
    rewrite (py_nth_in_range l UnknownType i) by (fold n; lia). reflexivity.
  - intro H. destruct (Z.ltb_spec i 0); [ | lia ].
    destruct (Z.ltb_spec (i + n) 0); [ lia | ].
    destruct (Z.leb_spec n (i + n)); [ lia | ]. simpl.
    rewrite (py_nth_in_range l UnknownType (i + n)) by (fold n; lia). reflexivity.
  - intro H. destruct (Z.ltb_spec i 0).
    + destruct (Z.ltb_spec (i + n) 0); [ reflexivity | ].
      destruct (Z.leb_spec n (i + n)); [ reflexivity | lia ].
    + destruct (Z.ltb_spec i 0); [ lia | ].
      destruct (Z.leb_spec n i); [ reflexivity | lia ].
  - intros c s e. destruct c; reflexivity.
Qed.

Lemma index_bounds_witness :
  index (VType (TupleType [NumType; StrType])) (LiteralNum 1) = Ok (VType StrType) /\
  index (VType (TupleType [NumType; StrType])) (LiteralNum (-1)) = Ok (VType StrType) /\
  index (VType (TupleType [NumType; StrType])) (LiteralNum 2) = Err IndexError.
Proof.
  split; [ | split ].
  - apply (proj1 (index_bounds [NumType; StrType] 1)). simpl. lia.
  - apply (proj1 (proj2 (index_bounds [NumType; StrType] (-1)))). simpl. lia.
  - apply (proj1 (proj2 (proj2 (index_bounds [NumType; StrType] 2)))). simpl. lia.
Defined.

(* ===================================================================== *)
(** * Further properties of the state store *)
(* ===================================================================== *)

Lemma load_variable_existing_raises :
  forall x s id,
    find_variable_scope_in x s = Ok id ->
    id_exists id = true ->
    exists e, load_variable x s = (Err e, s).
Proof.
  intros x s id Hfind Hex.
  unfold load_variable.
  rewrite (bind_ok (gets (_scope_chain_str x)) _ s _ s eq_refl).
  destruct (path_chain s) as [ | p ps ] eqn:Hp.
  - rewrite (bind_err first_path _ s IndexError s)
      by (unfold first_path, reads; rewrite Hp; reflexivity).
    eexists; reflexivity.
  - rewrite (bind_ok first_path _ s p s)
      by (unfold first_path, reads; rewrite Hp; reflexivity).
    rewrite (bind_ok (find_variable_scope x) _ s id s)
      by (unfold find_variable_scope, reads; rewrite Hfind; reflexivity).
    rewrite Hex. cbn [negb].
    destruct (trace_state_raises (id_state id) "load" s) as [e He].
    rewrite (bind_err _ _ _ _ _ He).
    eexists; reflexivity.
Qed.

Lemma store_variable_existing_unchanged :
  forall x t s id,
    find_variable_scope_in x s = Ok id ->
    id_exists id = true ->
    exists e, store_variable x t s = (Err e, s).
Proof.
  intros x t s id Hfind Hex.
  unfold store_variable.
  rewrite (bind_ok (gets (_scope_chain_str x)) _ s _ s eq_refl).
  destruct (path_chain s) as [ | p ps ] eqn:Hp.
  - rewrite (bind_err first_path _ s IndexError s)
      by (unfold first_path, reads; rewrite Hp; reflexivity).
    eexists; reflexivity.
  - rewrite (bind_ok first_path _ s p s)
      by (unfold first_path, reads; rewrite Hp; reflexivity).
    rewrite (bind_ok (find_variable_scope x) _ s id s)
      by (unfold find_variable_scope, reads; rewrite Hfind; reflexivity).
    rewrite Hex. cbn [negb].
    destruct (trace_state_raises (id_state id) "store" s) as [e He].
    rewrite (bind_err _ _ _ _ _ He).
    eexists; reflexivity.
Qed.

(** A name that [find_variable_scope] finds can be neither written nor
    read: [store_variable] and [load_variable] both raise, and leave the
    analyzer, its report included, as it was. *)
Theorem visible_name_raises :
  forall x t s id,
    find_variable_scope_in x s = Ok id ->
    id_exists id = true ->
    (exists e, store_variable x t s = (Err e, s)) /\
    (exists e, load_variable x s = (Err e, s)).
Proof.
  intros x t s id Hfind Hex. split.
  - apply (store_variable_existing_unchanged x t s id Hfind Hex).
  - apply (load_variable_existing_raises x s id Hfind Hex).
Qed.

Lemma visible_name_raises_witness :
  id_exists
    (mkIdentifier true true "/x"
       (Some (mkState (Some "x") [] (VType NumType) "store"
                      (mkPosition 0 1) None no yes no))) = true /\
  (exists e, store_variable (Some "x") (VType StrType) seen_state
             = (Err e, seen_state)) /\
  (exists e, load_variable (Some "x") seen_state = (Err e, seen_state)).
Proof.
  split; [ reflexivity | ].
  apply (visible_name_raises (Some "x") (VType StrType) seen_state
           (mkIdentifier true true "/x"
              (Some (mkState (Some "x") [] (VType NumType) "store"
                             (mkPosition 0 1) None no yes no))));
    reflexivity.
Defined.

(** Whenever [store_variable] returns, it has taken the create branch: the
    State it returns has an empty trace, [read = 'no'], [set = 'yes'],
    [over = 'no'] and no [over_position]; it is recorded under the name's
    key on the first open path, and nothing else of the analyzer has
    changed.  The report is the object it was: its 'variables' show the new
    entry when they are the name map object itself, as they are after
    [process_ast], and are what they were when they are a dict of the
    report's own. *)
Theorem store_variable_returns_fresh :
  forall x t s st s',
    store_variable x t s = (Ok st, s') ->
    exists pos p ps d,
      run locate s = Ok pos /\
      path_chain s = p :: ps /\
      dict_get Z.eqb p (name_map s) = Some d /\
      st = mkState x [] t "store" pos None no yes no /\
      s' = set_name_map
             (dict_set Z.eqb p
                (dict_set String.eqb (_scope_chain_str x s) st d)
                (name_map s))
             s /\
      report_variables s'
      = match variables (report s) with
        | OwnVariables own => own
        | TheNameMap => name_map s'
        end.
Proof.
  intros x t s st s' H.
  unfold store_variable in H.
  rewrite (bind_ok (gets (_scope_chain_str x)) _ s _ s eq_refl) in H.
  destruct (path_chain s) as [ | p ps ] eqn:Hp.
  - rewrite (bind_err first_path _ s IndexError s) in H
      by (unfold first_path, reads; rewrite Hp; reflexivity).
    discriminate.
  - rewrite (bind_ok first_path _ s p s) in H
      by (unfold first_path, reads; rewrite Hp; reflexivity).
    destruct (find_variable_scope_in x s) as [id | e] eqn:Hfind.
    + rewrite (bind_ok (find_variable_scope x) _ s id s) in H
        by (unfold find_variable_scope, reads; rewrite Hfind; reflexivity).
      destruct (id_exists id) eqn:Hex; cbn [negb] in H.
      * destruct (trace_state_raises (id_state id) "store" s) as [e He].
        rewrite (bind_err _ _ _ _ _ He) in H. discriminate.
      * unfold bind, locate, reads, name_map_setitem, modify, ret, dict_item in H.
        simpl in H.
        destruct (rbind (py_last (node_chain s)) node_position) as [pos | e]
          eqn:Hloc; [ | discriminate ].
        unfold bind, reads, dict_item in H. simpl in H.
        destruct (dict_get Z.eqb p (name_map s)) as [d | ] eqn:Hd;
          [ | discriminate ].
        inversion H; subst.
        exists pos, p, ps, d.
        split; [ unfold run, locate, reads; simpl; exact Hloc | ].
        split; [ reflexivity | ].
        split; [ exact Hd | ].
        split; [ reflexivity | ]. split; [ reflexivity | ].
        unfold report_variables. simpl.
        destruct (variables (report s)); reflexivity.
    + rewrite (bind_err (find_variable_scope x) _ s e s) in H
        by (unfold find_variable_scope, reads; rewrite Hfind; reflexivity).
      discriminate.
Qed.

Lemma store_variable_returns_fresh_witness :
  variables (report after_run) = TheNameMap /\
  report_variables after_run = [(0, [])] /\
  report_variables (exec (store_variable (Some "x") (VType NumType)) after_run)
  = [(0, [("0/x", stored_state "x" (VType NumType) (mkPosition 0 1))])] /\
  exists pos p ps d,
    run locate after_run = Ok pos /\
    path_chain after_run = p :: ps /\
    dict_get Z.eqb p (name_map after_run) = Some d /\
    stored_state "x" (VType NumType) (mkPosition 0 1)
    = mkState (Some "x") [] (VType NumType) "store" pos None no yes no /\
    exec (store_variable (Some "x") (VType NumType)) after_run
    = set_name_map
        (dict_set Z.eqb p
           (dict_set String.eqb (_scope_chain_str (Some "x") after_run)
                     (stored_state "x" (VType NumType) (mkPosition 0 1)) d)
           (name_map after_run))
        after_run /\
    report_variables (exec (store_variable (Some "x") (VType NumType)) after_run)
    = match variables (report after_run) with
      | OwnVariables own => own
      | TheNameMap =>
          name_map (exec (store_variable (Some "x") (VType NumType)) after_run)
      end.
Proof.
  split; [ vm_compute; reflexivity | ].
  split; [ vm_compute; reflexivity | ].
  split; [ vm_compute; reflexivity | ].
  apply (store_variable_returns_fresh
           (Some "x") (VType NumType) after_run
           (stored_state "x" (VType NumType) (mkPosition 0 1))
           (exec (store_variable (Some "x") (VType NumType)) after_run)).
  vm_compute; reflexivity.
Defined.

Lemma find_in_paths_sound :
  forall nm chain name i paths id,
    find_in_paths nm chain name i paths = Ok (Some id) ->
    exists x p path st,
      name = Some x /\
      In p paths /\
      dict_get Z.eqb p nm = Some path /\
      dict_get String.eqb (chain_str (firstn i chain) ++ "/" ++ x) path = Some st /\
      id = mkIdentifier true (Nat.eqb i 0)
                        (chain_str (firstn i chain) ++ "/" ++ x) (Some st).
Proof.
  intros nm chain name i paths. induction paths as [ | a paths IH ];
    intros id H; simpl in H.
  - discriminate.
  - unfold dict_item in H.
    destruct (dict_get Z.eqb a nm) as [path | ] eqn:Hpath; simpl in H;
      [ | discriminate ].
    destruct name as [x | ]; simpl in H; [ | discriminate ].
    match type of H with
    | context [dict_get String.eqb ?k path] =>
        destruct (dict_get String.eqb k path) as [st | ] eqn:Hst
    end.
    + inversion H; subst. exists x, a, path, st.
      split; [ reflexivity | ]. split; [ left; reflexivity | ].
      split; [ exact Hpath | ]. split; [ exact Hst | reflexivity ].
    + destruct (IH id H) as (x' & p & path' & st & Hx & Hin & Hp & Hk & Hid).
      exists x', p, path', st.
      split; [ exact Hx | ]. split; [ right; exact Hin | ].
      split; [ exact Hp | ]. split; [ exact Hk | exact Hid ].
Qed.

Lemma find_in_scopes_sound :
  forall nm chain name paths indices id,
    find_in_scopes nm chain name paths indices = Ok id ->
    id = Identifier_False \/
    exists i, In i indices /\ find_in_paths nm chain name i paths = Ok (Some id).
Proof.
  intros nm chain name paths indices. induction indices as [ | i indices IH ];
    intros id H; simpl in H.
  - inversion H. left; reflexivity.
  - destruct (find_in_paths nm chain name i paths) as [[found | ] | e] eqn:E;
      simpl in H; [ | | discriminate ].
    + inversion H; subst. right. exists i. split; [ left; reflexivity | exact E ].
    + destruct (IH id H) as [Hf | (j & Hj & Hfound)]; [ left; exact Hf | ].
      right. exists j. split; [ right; exact Hj | exact Hfound ].
Qed.

(** What [find_variable_scope] can answer: either [Identifier(False)], or a
    State found on an open path under the key of a strict prefix of the
    scope chain, with [in_scope] true exactly for the empty prefix.  The key
    is never the one [store_variable] writes for the name in the current
    scope. *)
Theorem find_variable_scope_sound :
  forall name s id,
    find_variable_scope_in name s = Ok id ->
    id = Identifier_False \/
    exists x i p path st,
      name = Some x /\
      (i < length (scope_chain s))%nat /\
      In p (path_chain s) /\
      dict_get Z.eqb p (name_map s) = Some path /\
      dict_get String.eqb (id_scoped_name id) path = Some st /\
      id = mkIdentifier true (Nat.eqb i 0)
             (chain_str (firstn i (scope_chain s)) ++ "/" ++ x) (Some st) /\
      id_scoped_name id <> chain_str (scope_chain s) ++ "/" ++ x.
Proof.
  intros name s id H. unfold find_variable_scope_in in H.
  destruct (find_in_scopes_sound _ _ _ _ _ _ H) as [Hf | (i & Hi & Hfound)];
    [ left; exact Hf | right ].
  apply in_seq in Hi.
  destruct (find_in_paths_sound _ _ _ _ _ _ Hfound)
    as (x & p & path & st & Hx & Hin & Hp & Hk & Hid).
  exists x, i, p, path, st. subst id. simpl.
  split; [ exact Hx | ]. split; [ lia | ]. split; [ exact Hin | ].
  split; [ exact Hp | ]. split; [ exact Hk | ]. split; [ reflexivity | ].
  apply scoped_key_differs. lia.
Qed.

Lemma find_variable_scope_sound_witness :
  let id := mkIdentifier true true "/x"
              (Some (mkState (Some "x") [] (VType NumType) "store"
                             (mkPosition 0 1) None no yes no)) in
  find_variable_scope_in (Some "x") seen_state = Ok id /\
  (id = Identifier_False \/
   exists x i p path st,
     Some "x" = Some x /\
     (i < length (scope_chain seen_state))%nat /\
     In p (path_chain seen_state) /\
     dict_get Z.eqb p (name_map seen_state) = Some path /\
     dict_get String.eqb (id_scoped_name id) path = Some st /\
     id = mkIdentifier true (Nat.eqb i 0)
            (chain_str (firstn i (scope_chain seen_state)) ++ "/" ++ x) (Some st) /\
     id_scoped_name id <> chain_str (scope_chain seen_state) ++ "/" ++ x).
Proof.
  intro id. split; [ reflexivity | ].
  apply (find_variable_scope_sound (Some "x") seen_state id). reflexivity.
Defined.

(** ** The end-of-scope sweep and the top-level summary *)

Lemma in_scope_needs_empty_chain :
  forall full_name chain, chain <> [] -> in_scope full_name chain = false.
Proof.
  intros full_name chain Hne. unfold in_scope.
  assert (Hrev : rev chain <> []).
  { intro H. apply Hne. rewrite <- (rev_involutive chain), H. reflexivity. }
  destruct (rev chain) as [ | y m ]; [ contradiction | ].
  destruct (drop_last (split slash full_name)); reflexivity.
Qed.

Lemma for_each_skips :
  forall {A} (f : A -> M unit) (l : list A) s,
    (forall x, In x l -> f x s = (Ok tt, s)) ->
    for_each f l s = (Ok tt, s).
Proof.
  intros A f l s. induction l as [ | x l IH ]; intro H; simpl.
  - reflexivity.
  - unfold bind. rewrite (H x (or_introl eq_refl)).
    apply IH. intros y Hy. apply H. right; exact Hy.
Qed.

(** With any scope open, the module scope included, [_finish_scope]
    reports nothing and changes nothing: [in_scope] compares the name's
    scope strings with scope ids, and a string never equals an int. *)
Theorem finish_scope_silent :
  forall s p ps,
    scope_chain s <> [] ->
    path_chain s = p :: ps ->
    dict_mem Z.eqb p (name_map s) = true ->
    _finish_scope s = (Ok tt, s).
Proof.
  intros s p ps Hchain Hp Hmem.
  unfold dict_mem in Hmem.
  destruct (dict_get Z.eqb p (name_map s)) as [d | ] eqn:Hd; [ | discriminate ].
  unfold _finish_scope.
  rewrite (bind_ok first_path _ s p s)
    by (unfold first_path, reads; rewrite Hp; reflexivity).
  rewrite (bind_ok (reads (fun s0 => dict_item Z.eqb p (name_map s0))) _ s d s)
    by (unfold reads, dict_item; rewrite Hd; reflexivity).
  apply for_each_skips. intros entry _.
  unfold finish_entry, bind, gets, when.
  rewrite (in_scope_needs_empty_chain _ _ Hchain). reflexivity.
Qed.

Lemma finish_scope_silent_witness :
  scope_chain seen_state <> [] /\
  _finish_scope seen_state = (Ok tt, seen_state).
Proof.
  split; [ discriminate | ].
  apply (finish_scope_silent seen_state 0 []);
    [ discriminate | reflexivity | reflexivity ].
Defined.

(** With a scope open and the first path in the name map,
    [_collect_top_level_varaibles] returns and leaves an empty
    [top_level_variables] in the report, whatever names the path holds. *)
Theorem collect_top_level_empty :
  forall s p ps,
    scope_chain s <> [] ->
    path_chain s = p :: ps ->
    dict_mem Z.eqb p (name_map s) = true ->
    _collect_top_level_varaibles s
    = (Ok tt,
       set_report (mkReport (success (report s)) (error (report s))
                            (issues (report s)) (variables (report s))
                            (Some []))
                  s).
Proof.
  intros s p ps Hchain Hp Hmem.
  unfold dict_mem in Hmem.
  destruct (dict_get Z.eqb p (name_map s)) as [d | ] eqn:Hd; [ | discriminate ].
  unfold _collect_top_level_varaibles.
  unfold bind at 1. unfold modify at 1.
  set (s1 := set_report _ s).
  rewrite (bind_ok first_path _ s1 p s1)
    by (unfold first_path, reads; simpl; rewrite Hp; reflexivity).
  rewrite (bind_ok (reads (fun s0 => dict_item Z.eqb p (name_map s0))) _ s1 d s1)
    by (unfold reads, dict_item; simpl; rewrite Hd; reflexivity).
  apply for_each_skips. intros entry _.
  destruct (Nat.eqb (length (split slash (fst entry))) 2); [ | reflexivity ].
  unfold bind, reads, py_nth. simpl.
  destruct (scope_chain s) as [ | c chain ]; [ contradiction | ].
  simpl. destruct (Z.of_nat (length chain)); reflexivity.
Qed.

Lemma collect_top_level_empty_witness :
  scope_chain seen_state <> [] /\
  top_level_variables (report (exec _collect_top_level_varaibles seen_state))
  = Some [].
Proof.
  split; [ discriminate | ].
  unfold exec.
  rewrite (collect_top_level_empty seen_state 0 []);
    [ reflexivity | discriminate | reflexivity | reflexivity ].
Defined.

(** ** Reading what was written *)

Lemma split_nonempty : forall sep s, split sep s <> [].
Proof.
  intros sep s. destruct s as [ | c s ]; simpl; [ discriminate | ].
  destruct (Ascii.eqb c sep); [ discriminate | ].
  destruct (split sep s); discriminate.
Qed.

Lemma split_app :
  forall sep p x,
    split sep (p ++ String sep x) = (split sep p ++ split sep x)%list.
Proof.
  intros sep p x. induction p as [ | c p IH ]; simpl.
  - rewrite Ascii.eqb_refl. reflexivity.
  - destruct (Ascii.eqb c sep).
    + rewrite IH. reflexivity.
    + rewrite IH. pose proof (split_nonempty sep p) as Hne.
      destruct (split sep p); [ contradiction | reflexivity ].
Qed.

Lemma last_app_nonempty :
  forall {A} (l m : list A) d, m <> [] -> last (l ++ m) d = last m d.
Proof.
  intros A l m d Hm. induction l as [ | a l IH ]; simpl.
  - reflexivity.
  - destruct (l ++ m)%list eqn:E.
    + apply app_eq_nil in E. destruct E; contradiction.
    + exact IH.
Qed.

(** The unscoped name of a key is the name it was built from, when the
    name has no "/" in it. *)
Lemma rsplit_last_scoped :
  forall prefix x,
    split slash x = [x] ->
    rsplit_last slash (prefix ++ "/" ++ x) = x.
Proof.
  intros prefix x Hx. unfold rsplit_last.
  change (prefix ++ "/" ++ x) with (prefix ++ String slash x).
  rewrite split_app, last_app_nonempty by apply split_nonempty.
  rewrite Hx. reflexivity.
Qed.

Lemma find_out_in_path_exists :
  forall name path id,
    find_out_in_path name path = Some id -> id_exists id = true.
Proof.
  intros name path. induction path as [ | [k st] path IH ]; intros id H;
    simpl in H.
  - discriminate.
  - destruct (name_eqb name (rsplit_last slash k)).
    + inversion H; reflexivity.
    + apply IH; exact H.
Qed.

Lemma find_out_in_path_complete :
  forall x path full st,
    dict_get String.eqb full path = Some st ->
    rsplit_last slash full = x ->
    find_out_in_path (Some x) path <> None.
Proof.
  intros x path full st. induction path as [ | [k st0] path IH ];
    intros Hget Hlast; simpl in *.
  - discriminate.
  - destruct (String.eqb full k) eqn:E.
    + apply String.eqb_eq in E. subst k. rewrite Hlast.
      rewrite String.eqb_refl. discriminate.
    + destruct (String.eqb x (rsplit_last slash k)); [ discriminate | ].
      apply IH; assumption.
Qed.

Lemma find_out_in_paths_exists :
  forall x nm p path full st,
    dict_get Z.eqb p nm = Some path ->
    dict_get String.eqb full path = Some st ->
    rsplit_last slash full = x ->
    id_exists (find_out_in_paths (Some x) nm) = true.
Proof.
  intros x nm p path full st. induction nm as [ | [k pa] nm IH ];
    intros Hp Hget Hlast; simpl in *.
  - discriminate.
  - destruct (find_out_in_path (Some x) pa) as [id | ] eqn:E.
    + apply (find_out_in_path_exists _ _ _ E).
    + destruct (Z.eqb p k).
      * inversion Hp; subst pa.
        exfalso. apply (find_out_in_path_complete x path full st Hget Hlast).
        exact E.
      * apply IH; assumption.
Qed.

(** A name written by [store_variable] and then read by [load_variable]
    is reported as read out of scope: both calls return, the read files one
    'Read out of scope' record for the name at the current position and no
    'Undefined variables' record, and the State it returns, which replaces
    the written one, has the type [Unknown]. *)
Theorem load_after_store_reads_out_of_scope :
  forall (x : string) (t : pyval) (s : Tifa) (pos : Position)
         (p : Z) (ps : list Z),
    x <> "" ->
    split slash x = [x] ->
    run locate s = Ok pos ->
    path_chain s = p :: ps ->
    dict_mem Z.eqb p (name_map s) = true ->
    find_variable_scope_in (Some x) s = Ok Identifier_False ->
    dict_mem String.eqb "Read out of scope" (issues (report s)) = true ->
    exists s1 s2,
      store_variable (Some x) t s = (Ok (stored_state x t pos), s1) /\
      load_variable (Some x) s1 = (Ok (loaded_state x pos), s2) /\
      recorded p (_scope_chain_str (Some x) s) s2 = Some (loaded_state x pos) /\
      issues_of "Read out of scope" s2
      = (issues_of "Read out of scope" s
           ++ [[("name", d_name (Some x));
                ("position", d_position (Some pos))]])%list /\
      issues_of "Undefined variables" s2 = issues_of "Undefined variables" s.
Proof.
  intros x t s pos p ps Hx Hsplit Hloc Hp Hmem Hfind Hread.
  unfold dict_mem in Hmem, Hread.
  destruct (dict_get Z.eqb p (name_map s)) as [d | ] eqn:Hd; [ | discriminate ].
  destruct (dict_get String.eqb "Read out of scope" (issues (report s)))
    as [l | ] eqn:Hl; [ | discriminate ].
  pose proof (store_variable_fresh x t s pos p ps d Hloc Hp Hd Hfind) as Hstore.
  set (full := _scope_chain_str (Some x) s) in *.
  set (d1 := dict_set String.eqb full (stored_state x t pos) d) in *.
  set (s1 := set_name_map (dict_set Z.eqb p d1 (name_map s)) s) in *.
  assert (Hfull : full = chain_str (scope_chain s) ++ "/" ++ x).
  { unfold full, _scope_chain_str. destruct x; [ contradiction | reflexivity ]. }
  assert (Hd1 : dict_get Z.eqb p (name_map s1) = Some d1)
    by (unfold s1; simpl; apply (dict_get_set_same Z.eqb Z.eqb_eq)).
  assert (Hfind1 : find_variable_scope_in (Some x) s1 = Ok Identifier_False)
    by (apply (find_variable_scope_after_store x s p d); assumption).
  assert (Hout : id_exists (find_out_in_paths (Some x) (name_map s1)) = true).
  { apply (find_out_in_paths_exists x (name_map s1) p d1 full
             (stored_state x t pos) Hd1).
    - unfold d1. apply (dict_get_set_same String.eqb String.eqb_eq).
    - rewrite Hfull. apply rsplit_last_scoped. exact Hsplit. }
  destruct (report_issue_appends "Read out of scope" (Some x) s1 pos l Hloc Hl)
    as (Hrun & Hloc2 & Hissues & _).
  exists s1.
  unfold run, exec in Hrun, Hloc2, Hissues.
  destruct (report_issue "Read out of scope" [("name", d_name (Some x))] s1)
    as [r s1'] eqn:Hreport.
  simpl in Hrun, Hloc2, Hissues. subst r.
  assert (Hs1' : exists rep, s1' = set_report rep s1).
  { destruct (report_issue_name_only "Read out of scope" (Some x) s1 pos l Hloc Hl)
      as [rep Hrep].
    rewrite Hrep in Hreport. inversion Hreport. exists rep; reflexivity. }
  destruct Hs1' as [rep Hs1']. subst s1'.
  exists (set_name_map
            (dict_set Z.eqb p
               (dict_set String.eqb full (loaded_state x pos) d1)
               (name_map s1))
            (set_report rep s1)).
  split; [ exact Hstore | ].
  split.
  - unfold load_variable.
    rewrite (bind_ok (gets (_scope_chain_str (Some x))) _ s1 full s1 eq_refl).
    rewrite (bind_ok first_path _ s1 p s1)
      by (unfold first_path, reads; simpl; rewrite Hp; reflexivity).
    rewrite (bind_ok (find_variable_scope (Some x)) _ s1 Identifier_False s1)
      by (unfold find_variable_scope, reads; rewrite Hfind1; reflexivity).
    cbn [id_exists Identifier_False negb].
    rewrite (bind_ok (find_variable_out_of_scope (Some x)) _ s1
                     (find_out_in_paths (Some x) (name_map s1)) s1 eq_refl).
    rewrite Hout.
    rewrite (bind_ok _ _ s1 tt (set_report rep s1) Hreport).
    rewrite (bind_ok locate _ (set_report rep s1) pos (set_report rep s1))
      by (unfold locate, reads in *; simpl in *;
          unfold run in Hloc; simpl in Hloc; rewrite Hloc; reflexivity).
    unfold bind, name_map_setitem, reads, modify, ret, dict_item. simpl.
    unfold bind. simpl.
    rewrite (dict_get_set_same Z.eqb Z.eqb_eq). reflexivity.
  - split; [ | split ].
    + unfold recorded. simpl.
      rewrite (dict_get_set_same Z.eqb Z.eqb_eq).
      apply (dict_get_set_same String.eqb String.eqb_eq).
    + unfold issues_of in *. simpl in *. rewrite Hissues, Hl. reflexivity.
    + assert (Hother :
                dict_get String.eqb "Undefined variables" (issues rep)
                = dict_get String.eqb "Undefined variables" (issues (report s))).
      { unfold report_issue, bind, reads, locate, ret, modify, dict_item in Hreport.
        unfold s1 in Hreport. simpl in Hreport.
        unfold run, locate, reads in Hloc. simpl in Hloc.
        rewrite Hloc in Hreport.
        change (report (set_name_map (dict_set Z.eqb p d1 (name_map s)) s))
          with (report s) in Hreport.
        rewrite Hl in Hreport. inversion Hreport as [Hrep].
        simpl.
        apply (dict_get_set_other String.eqb String.eqb_eq). discriminate. }
      unfold issues_of. simpl. rewrite Hother. reflexivity.
Qed.

Lemma load_after_store_reads_out_of_scope_witness :
  "x" <> "" /\
  split slash "x" = ["x"] /\
  exists s1 s2,
    store_variable (Some "x") (VType NumType) (at_node line1)
    = (Ok (stored_state "x" (VType NumType) (mkPosition 0 1)), s1) /\
    load_variable (Some "x") s1 = (Ok (loaded_state "x" (mkPosition 0 1)), s2) /\
    recorded 0 (_scope_chain_str (Some "x") (at_node line1)) s2
    = Some (loaded_state "x" (mkPosition 0 1)) /\
    issues_of "Read out of scope" s2
    = (issues_of "Read out of scope" (at_node line1)
         ++ [[("name", d_name (Some "x"));
              ("position", d_position (Some (mkPosition 0 1)))]])%list /\
    issues_of "Undefined variables" s2
    = issues_of "Undefined variables" (at_node line1).
Proof.
  split; [ discriminate | ]. split; [ reflexivity | ].
  apply (load_after_store_reads_out_of_scope "x" (VType NumType) (at_node line1)
           (mkPosition 0 1) 0 []);
    [ discriminate | reflexivity | reflexivity | reflexivity | reflexivity
    | reflexivity | reflexivity ].
Defined.

(** ** Witnesses for the general facts on modules and on two writes *)

Lemma load_module_registered_reports_witness :
  exists m l',
    run (load_module "matplotlib.pyplot") (at_node line1) = Ok m /\
    class_of m = cModuleType /\
    submodule_issues (exec (load_module "matplotlib.pyplot") (at_node line1))
    = ([] ++ [("name", d_name (Some "matplotlib.pyplot"));
              ("position", d_position (Some (mkPosition 0 1)))] :: l')%list.
Proof.
  apply (load_module_registered_reports "matplotlib.pyplot" (at_node line1)
           (mkPosition 0 1) []
           (match dict_get String.eqb "matplotlib" MODULES with
            | Some top => top
            | None => UnknownType
            end));
    reflexivity.
Defined.

Lemma load_module_unregistered_witness :
  run (load_module "numpy.random") (at_node line1) = Ok ModuleType_default /\
  issues_of "Module not found" (exec (load_module "numpy.random") (at_node line1))
  = ([] ++ [[("name", d_name (Some "numpy.random"));
             ("position", d_position (Some (mkPosition 0 1)))]])%list.
Proof.
  apply (load_module_unregistered "numpy.random" (at_node line1)
           (mkPosition 0 1) []);
    reflexivity.
Defined.

Lemma second_store_is_fresh_witness :
  "x" <> "" /\
  exists s1 s2,
    store_variable (Some "x") (VType NumType) (at_node line1)
    = (Ok (stored_state "x" (VType NumType) (mkPosition 0 1)), s1) /\
    store_variable (Some "x") (VType StrType) s1
    = (Ok (stored_state "x" (VType StrType) (mkPosition 0 1)), s2) /\
    recorded 0 (_scope_chain_str (Some "x") (at_node line1)) s2
    = Some (stored_state "x" (VType StrType) (mkPosition 0 1)).
Proof.
  split; [ discriminate | ].
  apply (second_store_is_fresh "x" (VType NumType) (VType StrType)
           (at_node line1) (mkPosition 0 1) 0 []);
    [ discriminate | reflexivity | reflexivity | reflexivity | reflexivity ].
Defined.

(* ===================================================================== *)
(** * What a run keeps *)
(* ===================================================================== *)

Lemma bind_inv_ok :
  forall {A B} (m : M A) (f : A -> M B) s b s',
    bind m f s = (Ok b, s') ->
    exists a s1, m s = (Ok a, s1) /\ f a s1 = (Ok b, s').
Proof.
  intros A B m f s b s' H. unfold bind in H.
  destruct (m s) as [[a | e] s1]; [ | discriminate ].
  exists a, s1. split; [ reflexivity | exact H ].
Qed.

Section Keeps.
Variable I : Tifa -> Prop.

Lemma keeps_ret : forall {A} (a : A), keeps I (ret a).
Proof. intros A a s H; exact H. Qed.

Lemma keeps_raise : forall {A} (e : exn), keeps I (@raise A e).
Proof. intros A e s H; exact H. Qed.

Lemma keeps_lift : forall {A} (r : result A), keeps I (lift r).
Proof. intros A r s H; exact H. Qed.

Lemma keeps_gets : forall {A} (f : Tifa -> A), keeps I (gets f).
Proof. intros A f s H; exact H. Qed.

Lemma keeps_reads : forall {A} (f : Tifa -> result A), keeps I (reads f).
Proof. intros A f s H; exact H. Qed.

Lemma keeps_modify :
  forall f : Tifa -> Tifa, (forall s, I s -> I (f s)) -> keeps I (modify f).
Proof. intros f Hf s H. apply Hf; exact H. Qed.

Lemma keeps_bind :
  forall {A B} (m : M A) (f : A -> M B),
    keeps I m -> (forall a, keeps I (f a)) -> keeps I (bind m f).
Proof.
  intros A B m f Hm Hf s H. unfold bind.
  specialize (Hm s H). destruct (m s) as [[a | e] s1]; simpl in *.
  - apply Hf; exact Hm.
  - exact Hm.
Qed.

Lemma keeps_bind_raises :
  forall {A B} (m : M A) (f : A -> M B),
    (forall s, exists e, m s = (Err e, s)) -> keeps I (bind m f).
Proof.
  intros A B m f Hm s H. unfold bind.
  destruct (Hm s) as [e He]. rewrite He. exact H.
Qed.

Lemma keeps_when :
  forall (c : bool) (m : M unit), keeps I m -> keeps I (when c m).
Proof. intros [ | ] m H; simpl; [ exact H | apply keeps_ret ]. Qed.

Lemma keeps_for_each :
  forall {A} (f : A -> M unit) (l : list A),
    Forall (fun x => keeps I (f x)) l -> keeps I (for_each f l).
Proof.
  intros A f l H. induction H as [ | x l Hx _ IH ]; simpl.
  - apply keeps_ret.
  - apply keeps_bind; [ exact Hx | intros _; exact IH ].
Qed.

Lemma keeps_for_all :
  forall {A} (f : A -> M unit) (l : list A),
    (forall x, keeps I (f x)) -> keeps I (for_each f l).
Proof.
  intros A f l H. apply keeps_for_each. apply Forall_forall. intros x _. apply H.
Qed.

(** *** The methods below the visitor *)

Hypothesis I_name_map : forall v s, I s -> I (set_name_map v s).
Hypothesis I_issue :
  forall kind data, In kind reported_kinds -> keeps I (report_issue kind data).

Ltac keeps_step :=
  match goal with
  | |- keeps _ (ret _) => apply keeps_ret
  | |- keeps _ (raise _) => apply keeps_raise
  | |- keeps _ (lift _) => apply keeps_lift
  | |- keeps _ (bind (trace_state _ _) _) =>
      apply keeps_bind_raises; intro; apply trace_state_raises
  | |- keeps _ (bind _ _) => apply keeps_bind; [ | intro ]
  | |- keeps _ (gets _) => apply keeps_gets
  | |- keeps _ (reads _) => apply keeps_reads
  | |- keeps _ (report_issue _ _) => apply I_issue; simpl; tauto
  | |- keeps _ (when _ _) => apply keeps_when
  | |- keeps _ (for_each _ _) => apply keeps_for_all; intro
  | |- keeps _ (if ?b then _ else _) => destruct b
  | |- keeps _ (match ?x with _ => _ end) => destruct x
  | |- keeps _ _ => solve [ auto ]
  end.

Lemma keeps_locate : keeps I locate.
Proof. apply keeps_reads. Qed.

Lemma keeps_find_variable_scope : forall name, keeps I (find_variable_scope name).
Proof. intro; apply keeps_reads. Qed.

Lemma keeps_find_variable_out_of_scope :
  forall name, keeps I (find_variable_out_of_scope name).
Proof. intro; apply keeps_gets. Qed.

Lemma keeps_first_path : keeps I first_path.
Proof. apply keeps_reads. Qed.

Lemma keeps_name_map_setitem :
  forall path full_name st, keeps I (name_map_setitem path full_name st).
Proof.
  intros. unfold name_map_setitem.
  apply keeps_bind; [ apply keeps_reads | intro d ].
  apply keeps_modify. intros s H. apply I_name_map; exact H.
Qed.

Lemma keeps_state_attr :
  forall {A} state (f : State -> A), keeps I (state_attr state f).
Proof. intros A state f. unfold state_attr. destruct state; repeat keeps_step. Qed.

Hint Resolve keeps_locate keeps_find_variable_scope
  keeps_find_variable_out_of_scope keeps_first_path keeps_name_map_setitem
  @keeps_state_attr : core.

Lemma keeps_store_variable :
  forall name type, keeps I (store_variable name type).
Proof. intros; unfold store_variable; repeat keeps_step. Qed.

Lemma keeps_load_variable : forall name, keeps I (load_variable name).
Proof. intros; unfold load_variable; repeat keeps_step. Qed.

Hint Resolve keeps_store_variable keeps_load_variable : core.

Lemma keeps_walk_modules :
  forall chain names base, keeps I (walk_modules chain base names).
Proof.
  intros chain names. induction names as [ | module names IH ]; intro base;
    simpl.
  - apply keeps_ret.
  - repeat keeps_step; apply IH.
Qed.

Lemma keeps_load_module : forall chain, keeps I (load_module chain).
Proof.
  intro chain. unfold load_module.
  destruct (dict_get String.eqb (hd "" (split dot chain)) MODULES).
  - apply keeps_walk_modules.
  - repeat keeps_step.
Qed.

Hint Resolve keeps_load_module : core.

Lemma keeps_visit_Name : forall name ctx, keeps I (visit_Name name ctx).
Proof. intros; unfold visit_Name; repeat keeps_step. Qed.

Lemma keeps_binop_result :
  forall op left right, keeps I (binop_result op left right).
Proof. intros; unfold binop_result; repeat keeps_step. Qed.

Lemma keeps_augassign_result :
  forall name op left right, keeps I (augassign_result name op left right).
Proof. intros; unfold augassign_result; repeat keeps_step. Qed.

Lemma keeps_unaryop_result :
  forall op operand, keeps I (unaryop_result op operand).
Proof. intros; unfold unaryop_result; repeat keeps_step. Qed.

Lemma keeps_visit_Import : forall names, keeps I (visit_Import names).
Proof. intros; unfold visit_Import; repeat keeps_step. Qed.

Lemma keeps_visit_ImportFrom :
  forall module names, keeps I (visit_ImportFrom module names).
Proof. intros; unfold visit_ImportFrom; repeat keeps_step. Qed.

Lemma keeps_action : forall target type, keeps I (action target type).
Proof.
  intro target.
  induction target using node_induction; intro type; simpl;
    try solve [ repeat keeps_step ].
  - generalize 0 as i.
    induction H as [ | elt elts Helt _ IH ]; intro i; repeat keeps_step.
  - generalize 0 as i.
    induction H as [ | elt elts Helt _ IH ]; intro i; repeat keeps_step.
Qed.

Hint Resolve keeps_visit_Name keeps_binop_result keeps_augassign_result
  keeps_unaryop_result keeps_visit_Import keeps_visit_ImportFrom
  keeps_action : core.

(** *** The visitor *)

Hypothesis I_enter : forall n, keeps I (visit_enter n).
Hypothesis I_leave : forall result, keeps I (visit_leave result).

Lemma keeps_visit_each :
  forall l, Forall (fun n => keeps I (visit n)) l ->
            keeps I (for_each (fun t => visit t ;; ret tt) l).
Proof.
  intros l H. apply keeps_for_each.
  induction H as [ | x l Hx _ IH ]; constructor;
    [ repeat keeps_step | exact IH ].
Qed.

Lemma keeps_visit : forall n, keeps I (visit n).
Proof.
  intro n.
  induction n using node_induction; simpl;
    repeat first [ assumption
                 | apply I_enter
                 | apply I_leave
                 | apply keeps_visit_each; assumption
                 | keeps_step ].
Qed.
End Keeps.

(** What [report_issue] can do to the analyzer: nothing, when it raises, or
    append one record under its kind. *)
Lemma report_issue_state :
  forall kind data s,
    snd (report_issue kind data s) = s \/
    exists l data',
      dict_get String.eqb kind (issues (report s)) = Some l /\
      snd (report_issue kind data s)
      = set_report
          (mkReport (success (report s)) (error (report s))
                    (dict_set String.eqb kind (l ++ [data'])%list
                              (issues (report s)))
                    (variables (report s)) (top_level_variables (report s)))
          s.
Proof.
  intros kind data s.
  unfold report_issue, locate, bind, reads, ret, modify, dict_item.
  cbv beta.
  destruct (dict_mem String.eqb "position" data).
  - destruct (dict_get String.eqb kind (issues (report s))) as [l | ] eqn:E.
    + right. exists l, data. split; reflexivity.
    + left. reflexivity.
  - destruct (py_last (node_chain s)) as [n | e]; simpl;
      [ | left; reflexivity ].
    destruct (node_position n) as [pos | e]; simpl; [ | left; reflexivity ].
    destruct (dict_get String.eqb kind (issues (report s))) as [l | ] eqn:E.
    + right. eexists. eexists. split; reflexivity.
    + left. reflexivity.
Qed.

(** *** The calm analyzer *)

Lemma calm_name_map : forall v s, calm s -> calm (set_name_map v s).
Proof. intros v s H; exact H. Qed.

Lemma calm_report_issue :
  forall kind data, In kind reported_kinds -> keeps calm (report_issue kind data).
Proof.
  intros kind data Hin s Hc.
  destruct (report_issue_state kind data s) as [Hs | (l & data' & Hl & Hs)];
    rewrite Hs; [ exact Hc | ].
  destruct Hc as (Hchain & Hsucc & Herr & Hquiet).
  repeat split; try assumption.
  intros K HK. simpl.
  rewrite (dict_get_set_other String.eqb String.eqb_eq).
  - apply Hquiet; exact HK.
  - intro Heq. subst K. contradiction.
Qed.

Lemma calm_visit_enter : forall n, keeps calm (visit_enter n).
Proof.
  intros n s Hc.
  assert (Hchain : scope_chain s = [0]) by (destruct Hc as [H _]; exact H).
  unfold visit_enter, bind, modify, gets, when. simpl.
  rewrite Hchain. simpl. exact Hc.
Qed.

Lemma calm_visit_leave : forall result, keeps calm (visit_leave result).
Proof.
  intro result. unfold visit_leave.
  apply keeps_bind; [ apply keeps_modify; intros s H; exact H | intros _ ].
  apply keeps_bind; [ apply keeps_gets | intros chain ].
  destruct chain; [ apply keeps_raise | ].
  apply keeps_bind; [ apply keeps_modify; intros s H; exact H | intros _ ].
  apply keeps_ret.
Qed.

Lemma calm_finish_scope : keeps calm _finish_scope.
Proof.
  unfold _finish_scope.
  apply keeps_bind; [ apply keeps_reads | intro path_id ].
  apply keeps_bind; [ apply keeps_reads | intro names ].
  apply keeps_for_all. intros entry s Hc.
  assert (Hchain : scope_chain s = [0]) by (destruct Hc as [H _]; exact H).
  unfold finish_entry, bind, gets, when.
  rewrite in_scope_needs_empty_chain by (rewrite Hchain; discriminate).
  exact Hc.
Qed.

Lemma keeps_collect_loop :
  forall I path, keeps I
    (main_path_vars <- reads (fun s => dict_item Z.eqb path (name_map s)) ;;
     for_each
       (fun entry : string * State =>
          let split_name := split slash (fst entry) in
          if Nat.eqb (length split_name) 2 then
            top <- reads (fun s => py_nth (scope_chain s) 0) ;;
            if py_eq_str_int (hd EmptyString split_name) top
            then raise NameError
            else ret tt
          else ret tt)
       main_path_vars).
Proof.
  intros I path.
  apply keeps_bind; [ apply keeps_reads | intro vars ].
  apply keeps_for_all. intro entry. simpl.
  destruct (Nat.eqb (length (split slash (fst entry))) 2); [ | apply keeps_ret ].
  apply keeps_bind; [ apply keeps_reads | intro top ].
  apply keeps_ret.
Qed.

Lemma calm_collect : keeps calm _collect_top_level_varaibles.
Proof.
  unfold _collect_top_level_varaibles.
  apply keeps_bind; [ apply keeps_modify; intros s H; exact H | intros _ ].
  apply keeps_bind; [ apply keeps_reads | intro path ].
  apply keeps_collect_loop.
Qed.

Lemma calm_analysis : forall ast_tree, keeps calm (analysis ast_tree).
Proof.
  intro ast_tree. unfold analysis.
  apply keeps_bind;
    [ apply keeps_visit;
      [ exact calm_name_map | exact calm_report_issue
      | exact calm_visit_enter | exact calm_visit_leave ]
    | intros _ ].
  apply keeps_bind; [ apply keeps_modify; intros s H; exact H | intros _ ].
  apply keeps_bind; [ exact calm_finish_scope | intros _ ].
  apply keeps_bind; [ exact calm_collect | intros _ ].
  apply keeps_gets.
Qed.

Lemma calm_reset_state : calm reset_state.
Proof. repeat split. Qed.

Lemma calm_after_process_ast :
  forall ast_tree s, calm (exec (process_ast ast_tree) s).
Proof.
  intros ast_tree s. unfold exec.
  rewrite process_ast_from_reset. simpl.
  exact (calm_analysis ast_tree reset_state calm_reset_state).
Qed.

(** Whatever the tree and however the run ends, [process_ast] leaves under
    every issue kind outside 'Unconnected blocks', 'Read out of scope',
    'Undefined variables', 'Submodule not found' and 'Module not found' what
    a fresh report holds: the visitor of this version never files a type
    change, an overwritten or unread variable, incompatible types or an
    action after a return. *)
Theorem process_ast_quiet_kinds :
  forall ast_tree s K,
    ~ In K reported_kinds ->
    dict_get String.eqb K (issues (report (exec (process_ast ast_tree) s)))
    = dict_get String.eqb K (issues _initialize_report).
Proof.
  intros ast_tree s K HK.
  destruct (calm_after_process_ast ast_tree s) as (_ & _ & _ & Hquiet).
  apply Hquiet; exact HK.
Qed.

Lemma process_ast_quiet_kinds_witness :
  ~ In "Type changes" reported_kinds /\
  dict_get String.eqb "Type changes"
    (issues (report (exec (process_ast
                             (ast_Other
                                [ast_Assign [ast_Name "x" ast_Store (mkPosition 0 1)]
                                            (ast_Name "True" ast_Load (mkPosition 4 1))
                                            (mkPosition 0 1);
                                 ast_Assign [ast_Name "x" ast_Store (mkPosition 0 2)]
                                            (ast_Name "None" ast_Load (mkPosition 4 2))
                                            (mkPosition 0 2)]
                                None))
                          blank)))
  = Some [].
Proof.
  assert (H : ~ In "Type changes" reported_kinds)
    by (simpl; intuition discriminate).
  split; [ exact H | ].
  exact (process_ast_quiet_kinds _ blank "Type changes" H).
Defined.

(** *** The report a run returns *)

Lemma collect_sets_top_level :
  forall s,
    top_level_variables (report (snd (_collect_top_level_varaibles s))) = Some [].
Proof.
  intro s. unfold _collect_top_level_varaibles.
  unfold bind at 1. unfold modify at 1.
  set (s1 := set_report _ s).
  assert (H1 : top_level_variables (report s1) = Some []) by reflexivity.
  revert H1. generalize s1. clear s1.
  change (keeps (fun s => top_level_variables (report s) = Some [])
                (path <- first_path ;;
                 main_path_vars <-
                   reads (fun s => dict_item Z.eqb path (name_map s)) ;;
                 for_each
                   (fun entry : string * State =>
                      let split_name := split slash (fst entry) in
                      if Nat.eqb (length split_name) 2 then
                        top <- reads (fun s => py_nth (scope_chain s) 0) ;;
                        if py_eq_str_int (hd EmptyString split_name) top
                        then raise NameError
                        else ret tt
                      else ret tt)
                   main_path_vars)).
  apply keeps_bind; [ apply keeps_reads | intro path ].
  apply keeps_collect_loop.
Qed.

Lemma process_ast_ok_report :
  forall ast_tree s r s',
    process_ast ast_tree s = (Ok r, s') ->
    r = report s' /\
    success r = true /\
    error r = None /\
    top_level_variables r = Some [].
Proof.
  intros ast_tree s r s' E.
  pose proof (calm_after_process_ast ast_tree s) as (_ & Hsucc & Herr & _).
  unfold exec in Hsucc, Herr. rewrite E in Hsucc, Herr.
  simpl in Hsucc, Herr.
  unfold process_ast in E.
  repeat (apply bind_inv_ok in E; destruct E as (? & ? & ? & E)).
  unfold gets in E. inversion E; subst.
  repeat split; try assumption.
  match goal with
  | Hc : _collect_top_level_varaibles ?s0 = (Ok _, _) |- _ =>
      pose proof (collect_sets_top_level s0) as Htop; rewrite Hc in Htop
  end.
  exact Htop.
Qed.

(** A report that [process_ast] returns is the one it stored in
    [self.report]; it is a successful report without an [error] entry, and
    its [top_level_variables] is empty whatever the tree assigned. *)
Theorem process_ast_returned_report :
  forall ast_tree s r,
    run (process_ast ast_tree) s = Ok r ->
    r = report (exec (process_ast ast_tree) s) /\
    success r = true /\
    error r = None /\
    top_level_variables r = Some [].
Proof.
  intros ast_tree s r H. unfold run, exec in *.
  destruct (process_ast ast_tree s) as [res s'] eqn:E. simpl in *. subst res.
  exact (process_ast_ok_report ast_tree s r s' E).
Qed.

Lemma process_ast_returned_report_witness :
  exists r,
    run (process_ast (ast_Other [ast_Import [mkAlias "math" None] (mkPosition 0 1)]
                                None)) blank = Ok r /\
    r = report (exec (process_ast
                        (ast_Other [ast_Import [mkAlias "math" None]
                                               (mkPosition 0 1)] None)) blank) /\
    success r = true /\
    error r = None /\
    top_level_variables r = Some [].
Proof.
  exists (report (exec (process_ast
                          (ast_Other [ast_Import [mkAlias "math" None]
                                                 (mkPosition 0 1)] None)) blank)).
  split; [ vm_compute; reflexivity | ].
  apply (process_ast_returned_report
           (ast_Other [ast_Import [mkAlias "math" None] (mkPosition 0 1)] None)
           blank).
  vm_compute; reflexivity.
Defined.

Lemma process_code_cases :
  forall (ast_parse : string -> string -> result node)
         (code filename : string) (s : Tifa),
    let s0 := set_source (match code with
                          | EmptyString => []
                          | _ => split newline code
                          end) s in
    process_code ast_parse code filename s
    = match ast_parse code filename with
      | Ok tree =>
          match process_ast tree s0 with
          | (Ok r, s') => (Ok r, s')
          | (Err e, s') => (Err e, set_report (_error_report e) s')
          end
      | Err e => (Err e, set_report (_error_report e) s0)
      end.
Proof.
  intros ast_parse code filename s s0.
  unfold process_code.
  unfold bind at 1. unfold modify at 1. fold s0.
  unfold bind at 1. unfold lift at 1.
  destruct (ast_parse code filename) as [tree | e0].
  - destruct (process_ast tree s0) as [[r0 | e1] s1]; reflexivity.
  - reflexivity.
Qed.

(** [process_code] either returns a successful report, the one
    [process_ast] returned for the parsed tree, or raises; when it raises,
    for a parse error as for an error of the analysis, the report it leaves
    in [self.report] is the error report of the very error it raises. *)
Theorem process_code_outcomes :
  forall (ast_parse : string -> string -> result node)
         (code filename : string) (s : Tifa),
    (forall r,
        run (process_code ast_parse code filename) s = Ok r ->
        success r = true /\ error r = None /\
        r = report (exec (process_code ast_parse code filename) s)) /\
    (forall e,
        run (process_code ast_parse code filename) s = Err e ->
        report (exec (process_code ast_parse code filename) s)
        = _error_report e).
Proof.
  intros ast_parse code filename s.
  unfold run, exec. rewrite process_code_cases.
  set (s0 := set_source _ s).
  destruct (ast_parse code filename) as [tree | e0].
  - destruct (process_ast tree s0) as [[r0 | e1] s1] eqn:E; simpl.
    + split; [ | intros e He; discriminate ].
      intros r Hr. inversion Hr; subst r0.
      destruct (process_ast_ok_report tree s0 r s1 E) as (Heq & Hs & He & _).
      split; [ exact Hs | ]. split; [ exact He | exact Heq ].
    + split; [ intros r Hr; discriminate | ].
      intros e He. inversion He; subst. reflexivity.
  - simpl. split; [ intros r Hr; discriminate | ].
    intros e He. inversion He; subst. reflexivity.
Qed.

Lemma process_code_outcomes_witness :
  run (process_code (fun _ _ => Ok (ast_BinOp
                                      (ast_Name "True" ast_Load (mkPosition 0 1))
                                      Add
                                      (ast_Name "True" ast_Load (mkPosition 7 1))
                                      (mkPosition 0 1)))
                    "True + True" "__main__") blank
  = Err AttributeError /\
  report (exec (process_code (fun _ _ => Ok (ast_BinOp
                                      (ast_Name "True" ast_Load (mkPosition 0 1))
                                      Add
                                      (ast_Name "True" ast_Load (mkPosition 7 1))
                                      (mkPosition 0 1)))
                             "True + True" "__main__") blank)
  = _error_report AttributeError.
Proof.
  split; [ vm_compute; reflexivity | ].
  apply (proj2 (process_code_outcomes
                  (fun _ _ => Ok (ast_BinOp
                                    (ast_Name "True" ast_Load (mkPosition 0 1))
                                    Add
                                    (ast_Name "True" ast_Load (mkPosition 7 1))
                                    (mkPosition 0 1)))
                  "True + True" "__main__" blank)).
  vm_compute; reflexivity.
Defined.

(** *** Scopes and paths *)

Lemma chains_report_issue :
  forall c p kind data,
    keeps (fun s => scope_chain s = c /\ path_chain s = p)
          (report_issue kind data).
Proof.
  intros c p kind data s H.
  destruct (report_issue_state kind data s) as [Hs | (l & data' & _ & Hs)];
    rewrite Hs; exact H.
Qed.

Lemma chains_visit_enter :
  forall c p n,
    keeps (fun s => scope_chain s = c /\ path_chain s = p) (visit_enter n).
Proof.
  intros c p n. unfold visit_enter.
  apply keeps_bind; [ apply keeps_modify; intros s H; exact H | intros _ ].
  apply keeps_bind; [ apply keeps_modify; intros s H; exact H | intros _ ].
  apply keeps_bind; [ apply keeps_gets | intro chain ].
  apply keeps_when.
  apply keeps_bind; [ apply keeps_reads | intro return_state ].
  apply keeps_when.
  apply keeps_bind; [ | intro was_set; apply keeps_when; apply chains_report_issue ].
  unfold state_attr. destruct (id_state return_state);
    [ apply keeps_ret | apply keeps_raise ].
Qed.

Lemma chains_visit_leave :
  forall c p result,
    keeps (fun s => scope_chain s = c /\ path_chain s = p) (visit_leave result).
Proof.
  intros c p result. unfold visit_leave.
  apply keeps_bind; [ apply keeps_modify; intros s H; exact H | intros _ ].
  apply keeps_bind; [ apply keeps_gets | intros chain ].
  destruct chain; [ apply keeps_raise | ].
  apply keeps_bind; [ apply keeps_modify; intros s H; exact H | intros _ ].
  apply keeps_ret.
Qed.

(** Visiting a tree never opens or closes a scope or a path: whether the
    visit returns or raises, the scope chain and the path chain are as
    before. *)
Theorem visit_keeps_chains :
  forall n s,
    scope_chain (exec (visit n) s) = scope_chain s /\
    path_chain (exec (visit n) s) = path_chain s.
Proof.
  intros n s.
  apply (keeps_visit (fun s' => scope_chain s' = scope_chain s
                                /\ path_chain s' = path_chain s)).
  - intros v s' H; exact H.
  - intros kind data _. apply chains_report_issue.
  - intro n'. apply chains_visit_enter.
  - intro r. apply chains_visit_leave.
  - split; reflexivity.
Qed.


(** *** The node stack *)

Lemma stack_report_issue :
  forall nc a kind data,
    keeps (fun s => node_chain s = nc /\ ast_id s = a) (report_issue kind data).
Proof.
  intros nc a kind data s H.
  destruct (report_issue_state kind data s) as [Hs | (l & data' & _ & Hs)];
    rewrite Hs; exact H.
Qed.

Lemma restores_of_keeps :
  forall {A} (m : M A),
    (forall nc a, keeps (fun s => node_chain s = nc /\ ast_id s = a) m) ->
    restores m.
Proof.
  intros A m H s a s' E.
  specialize (H (node_chain s) (ast_id s) s (conj eq_refl eq_refl)).
  rewrite E in H. exact H.
Qed.

Lemma restores_ret : forall {A} (a : A), restores (ret a).
Proof. intros A a s a' s' E. inversion E; subst. split; reflexivity. Qed.

Lemma restores_bind :
  forall {A B} (m : M A) (f : A -> M B),
    restores m -> (forall a, restores (f a)) -> restores (bind m f).
Proof.
  intros A B m f Hm Hf s b s' E.
  apply bind_inv_ok in E. destruct E as (a & s1 & E1 & E2).
  destruct (Hm _ _ _ E1) as [H1 H2]. destruct (Hf a _ _ _ E2) as [H3 H4].
  split; congruence.
Qed.

Lemma restores_for_each :
  forall {A} (f : A -> M unit) (l : list A),
    Forall (fun x => restores (f x)) l -> restores (for_each f l).
Proof.
  intros A f l H. induction H as [ | x l Hx _ IH ]; simpl.
  - apply restores_ret.
  - apply restores_bind; [ exact Hx | intros _; exact IH ].
Qed.

Lemma restores_leaf :
  forall {A} (m : M A),
    (forall I : Tifa -> Prop,
        (forall v s, I s -> I (set_name_map v s)) ->
        (forall kind data, In kind reported_kinds ->
                           keeps I (report_issue kind data)) ->
        keeps I m) ->
    restores m.
Proof.
  intros A m H. apply restores_of_keeps. intros nc a. apply H.
  - intros v s Hs; exact Hs.
  - intros kind data _. apply stack_report_issue.
Qed.

Lemma visit_enter_pushes :
  forall n s u s',
    visit_enter n s = (Ok u, s') ->
    node_chain s' = (node_chain s ++ [n])%list /\ ast_id s' = ast_id s + 1.
Proof.
  intros n s u s' E. unfold visit_enter in E.
  apply bind_inv_ok in E. destruct E as ([] & s1 & E1 & E).
  apply bind_inv_ok in E. destruct E as ([] & s2 & E2 & E).
  unfold modify in E1, E2. inversion E1; subst s1. inversion E2; subst s2.
  clear E1 E2.
  match type of E with
  | ?m ?s0 = _ =>
      assert (K : keeps (fun t => node_chain t = node_chain s0
                                  /\ ast_id t = ast_id s0) m)
  end.
  { apply keeps_bind; [ apply keeps_gets | intro chain ].
    apply keeps_when.
    apply keeps_bind; [ apply keeps_reads | intro return_state ].
    apply keeps_when.
    apply keeps_bind;
      [ | intro was_set; apply keeps_when; apply stack_report_issue ].
    unfold state_attr. destruct (id_state return_state);
      [ apply keeps_ret | apply keeps_raise ]. }
  specialize (K _ (conj eq_refl eq_refl)). rewrite E in K. simpl in K.
  exact K.
Qed.

Lemma visit_leave_pops :
  forall result s v s',
    visit_leave result s = (Ok v, s') ->
    node_chain s' = removelast (node_chain s) /\ ast_id s' = ast_id s - 1 /\
    v <> VNone.
Proof.
  intros result s v s' E. unfold visit_leave in E.
  apply bind_inv_ok in E. destruct E as ([] & s1 & E1 & E).
  unfold modify in E1. inversion E1; subst s1. clear E1.
  apply bind_inv_ok in E. destruct E as (chain & s2 & E2 & E).
  unfold gets in E2. inversion E2; subst. clear E2.
  simpl in E. destruct (node_chain s) as [ | x l ] eqn:Hc.
  - discriminate.
  - apply bind_inv_ok in E. destruct E as ([] & s3 & E3 & E).
    unfold modify in E3. inversion E3; subst s3. clear E3.
    unfold ret in E. inversion E; subst. simpl.
    split; [ reflexivity | ]. split; [ reflexivity | ].
    destruct result; discriminate.
Qed.

Lemma visit_wrapper_balanced :
  forall n (body : M pyval) s v s',
    restores body ->
    (visit_enter n ;; result <- body ;; visit_leave result)%tifa s = (Ok v, s') ->
    node_chain s' = node_chain s /\ ast_id s' = ast_id s /\ v <> VNone.
Proof.
  intros n body s v s' Hb E.
  apply bind_inv_ok in E. destruct E as (u & s1 & E1 & E).
  apply bind_inv_ok in E. destruct E as (r & s2 & E2 & E3).
  destruct (visit_enter_pushes _ _ _ _ E1) as [H1 H2].
  destruct (Hb _ _ _ E2) as [H3 H4].
  destruct (visit_leave_pops _ _ _ _ E3) as (H5 & H6 & H7).
  split; [ | split; [ lia | exact H7 ] ].
  rewrite H5, H3, H1. apply removelast_last.
Qed.

Lemma restores_visit_each :
  forall l,
    Forall (fun n => restores (visit n)) l ->
    restores (for_each (fun t => visit t ;; ret tt)%tifa l).
Proof.
  intros l H. apply restores_for_each.
  induction H as [ | x l Hx _ IH ]; constructor; [ | exact IH ].
  apply restores_bind; [ exact Hx | intros _; apply restores_ret ].
Qed.

Ltac restores_step :=
  match goal with
  | |- restores (ret _) => apply restores_ret
  | |- restores (visit _) => assumption
  | |- restores (for_each (fun t => bind (visit t) _) _) =>
      apply restores_visit_each; assumption
  | |- restores (bind _ _) => apply restores_bind; [ | intro ]
  | |- restores (lift _) => apply restores_leaf; intros; apply keeps_lift
  | |- restores (for_each (fun t => action t _) _) =>
      apply restores_leaf; intros; apply keeps_for_all; intro;
      apply keeps_action; assumption
  | |- restores (visit_Name _ _) =>
      apply restores_leaf; intros; apply keeps_visit_Name; assumption
  | |- restores (binop_result _ _ _) =>
      apply restores_leaf; intros; apply keeps_binop_result; assumption
  | |- restores (augassign_result _ _ _ _) =>
      apply restores_leaf; intros; apply keeps_augassign_result; assumption
  | |- restores (unaryop_result _ _) =>
      apply restores_leaf; intros; apply keeps_unaryop_result; assumption
  | |- restores (visit_Import _) =>
      apply restores_leaf; intros; apply keeps_visit_Import; assumption
  | |- restores (visit_ImportFrom _ _) =>
      apply restores_leaf; intros; apply keeps_visit_ImportFrom; assumption
  end.

Lemma visit_restores : forall n, restores (visit n).
Proof.
  intro n.
  induction n using node_induction;
    intros s v s' E; simpl in E;
    apply visit_wrapper_balanced in E;
    try (destruct E as (E1 & E2 & _); split; assumption);
    repeat restores_step.
Qed.

(** A visit that returns has popped what it pushed: the node stack and the
    node counter are as it found them; and it never returns [None]. *)
Theorem visit_balanced :
  forall n s v,
    run (visit n) s = Ok v ->
    node_chain (exec (visit n) s) = node_chain s /\
    ast_id (exec (visit n) s) = ast_id s /\
    v <> VNone.
Proof.
  intros n s v E. unfold run, exec in *.
  destruct (visit n s) as [r s'] eqn:Ev. simpl in *. subst r.
  destruct n; simpl in Ev;
    (eapply visit_wrapper_balanced; [ | exact Ev ]);
    repeat first [ apply visit_restores
                 | apply restores_visit_each; apply Forall_forall; intros;
                   apply visit_restores
                 | restores_step ].
Qed.

Lemma visit_balanced_witness :
  run (visit (ast_Assign [ast_Name "x" ast_Store (mkPosition 0 1)]
                         (ast_Name "True" ast_Load (mkPosition 4 1))
                         (mkPosition 0 1))) reset_state
  = Ok (VType UnknownType) /\
  node_chain (exec (visit (ast_Assign [ast_Name "x" ast_Store (mkPosition 0 1)]
                                      (ast_Name "True" ast_Load (mkPosition 4 1))
                                      (mkPosition 0 1))) reset_state)
  = node_chain reset_state /\
  ast_id (exec (visit (ast_Assign [ast_Name "x" ast_Store (mkPosition 0 1)]
                                  (ast_Name "True" ast_Load (mkPosition 4 1))
                                  (mkPosition 0 1))) reset_state)
  = ast_id reset_state /\
  VType UnknownType <> VNone.
Proof.
  split; [ vm_compute; reflexivity | ].
  apply (visit_balanced
           (ast_Assign [ast_Name "x" ast_Store (mkPosition 0 1)]
                       (ast_Name "True" ast_Load (mkPosition 4 1))
                       (mkPosition 0 1))
           reset_state (VType UnknownType)).
  vm_compute; reflexivity.
Defined.

(* ===================================================================== *)
(** * Filing an issue *)
(* ===================================================================== *)

(** [report_issue] touches one kind only: whether it returns or raises,
    what the report holds under every other kind is as before. *)
Theorem report_issue_other_kinds :
  forall kind K data s,
    K <> kind ->
    dict_get String.eqb K (issues (report (exec (report_issue kind data) s)))
    = dict_get String.eqb K (issues (report s)).
Proof.
  intros kind K data s Hne. unfold exec.
  destruct (report_issue_state kind data s) as [Hs | (l & data' & _ & Hs)];
    rewrite Hs; [ reflexivity | ].
  simpl. apply (dict_get_set_other String.eqb String.eqb_eq). exact Hne.
Qed.

Lemma report_issue_other_kinds_witness :
  dict_get String.eqb "Unread variables"
           (issues (report (exec (report_issue "Type changes" [])
                                 (at_node line1))))
  = dict_get String.eqb "Unread variables" (issues (report (at_node line1))).
Proof.
  apply (report_issue_other_kinds "Type changes" "Unread variables" []
                                  (at_node line1)).
  discriminate.
Defined.

(** [report_issue] files nothing when it cannot: asked for the position
    while no node is being visited it raises [IndexError], and under a kind
    the report holds no list for it raises [KeyError]; the analyzer is as
    before in both cases. *)
Theorem report_issue_failures :
  forall kind data s,
    (dict_mem String.eqb "position" data = false ->
     node_chain s = [] ->
     report_issue kind data s = (Err IndexError, s)) /\
    (dict_mem String.eqb "position" data = true
     \/ (exists pos, run locate s = Ok pos) ->
     dict_get String.eqb kind (issues (report s)) = None ->
     report_issue kind data s = (Err KeyError, s)).
Proof.
  intros kind data s. split.
  - intros Hd Hc.
    unfold report_issue, locate, bind, reads, ret, modify, dict_item.
    cbv beta. rewrite Hd, Hc. reflexivity.
  - intros Hpos Hk.
    unfold report_issue, locate, bind, reads, ret, modify, dict_item.
    cbv beta. destruct (dict_mem String.eqb "position" data).
    + rewrite Hk. reflexivity.
    + destruct Hpos as [Hpos | [pos Hpos]]; [ discriminate | ].
      unfold run, locate, reads in Hpos. simpl in Hpos. rewrite Hpos.
      simpl. rewrite Hk. reflexivity.
Qed.

Lemma report_issue_failures_witness :
  report_issue "Type changes" [] reset_state = (Err IndexError, reset_state) /\
  report_issue "Type change" [] (at_node line1)
  = (Err KeyError, at_node line1).
Proof.
  split.
  - apply (proj1 (report_issue_failures "Type changes" [] reset_state));
      reflexivity.
  - apply (proj2 (report_issue_failures "Type change" [] (at_node line1))).
    + right. exists (mkPosition 0 1). reflexivity.
    + reflexivity.
Defined.

(** A record that comes with its own 'position' is filed as it is, at the
    end of the list of its kind, and no node needs to be under visit. *)
Theorem report_issue_keeps_position :
  forall kind data s l,
    dict_mem String.eqb "position" data = true ->
    dict_get String.eqb kind (issues (report s)) = Some l ->
    run (report_issue kind data) s = Ok tt /\
    issues_of kind (exec (report_issue kind data) s) = (l ++ [data])%list.
Proof.
  intros kind data s l Hd Hk.
  unfold run, exec, issues_of, report_issue, bind, reads, ret, modify,
    dict_item.
  cbv beta. rewrite Hd. simpl. rewrite Hk. simpl.
  rewrite (dict_get_set_same String.eqb String.eqb_eq).
  split; reflexivity.
Qed.

Lemma report_issue_keeps_position_witness :
  run (report_issue "Type changes"
                    [("position", d_position (Some (mkPosition 4 2)))])
      reset_state = Ok tt /\
  issues_of "Type changes"
            (exec (report_issue "Type changes"
                                [("position", d_position (Some (mkPosition 4 2)))])
                  reset_state)
  = [[("position", d_position (Some (mkPosition 4 2)))]].
Proof.
  apply (report_issue_keeps_position
           "Type changes" [("position", d_position (Some (mkPosition 4 2)))]
           reset_state []); reflexivity.
Defined.
